(** * ompl_planner_base: the planning pipeline of [OMPLPlannerBase]

    A shallow embedding of [src/ompl_planner_base.cpp].  C++ [double] values
    are read as real numbers (rounding is not modelled), [int] values as
    integers of the 32-bit range, [std::vector] as [list], [std::string] as
    [string].  Calls into
    ROS, tf, costmap_2d and OMPL are either recorded as events of a trace or
    answered by an explicit environment record. *)

From Stdlib Require Import Reals Lra Lia ZArith List String Bool.
Import ListNotations.

Open Scope R_scope.

(** ** Numbers *)

(** [floor] and [ceil] of <cmath>. *)
Definition floor (r : R) : Z := Int_part r.
Definition ceil (r : R) : Z := (- Int_part (- r))%Z.

(** The range of a C++ [int] on the platforms ROS runs on (32 bits). *)
Definition INT_MIN : Z := (-2147483648)%Z.
Definition INT_MAX : Z := 2147483647%Z.

Definition in_int_range (z : Z) : bool :=
  (INT_MIN <=? z)%Z && (z <=? INT_MAX)%Z.

(** A value of type [int]: an integer together with the fact that it fits. *)
Record c_int : Type := mkInt {
  int_val : Z;
  int_range : in_int_range int_val = true }.

Definition int_0 : c_int := mkInt 0 eq_refl.
Definition int_256 : c_int := mkInt 256 eq_refl.

(** Truncation toward zero. *)
Definition truncate (d : R) : Z :=
  if Rle_dec 0 d then floor d else ceil d.

(** The conversion of a double to [int], written [(int) d] or left to an
    initialisation [int i = d]: the truncated value when an [int] can hold
    it.  Outside that range C++ leaves the conversion undefined; the model
    takes what the conversion instruction of x86-64 delivers there, which is
    [INT_MIN] whatever the sign of [d]. *)
Definition int_of_double (d : R) : Z :=
  let t := truncate d in
  if in_int_range t then t else INT_MIN.

Definition Rltb (a b : R) : bool := if Rlt_dec a b then true else false.
Definition Rleb (a b : R) : bool := if Rle_dec a b then true else false.
Definition Rgtb (a b : R) : bool := Rltb b a.
Definition Rgeb (a b : R) : bool := Rleb b a.

(** Modelled from the spec: [angles::normalize_angle] belongs to the ROS
    [angles] library and is not part of this repository.  The spec describes
    it as normalising an angle to the canonical range (-pi, pi]; the model
    subtracts the whole number of turns that brings the angle there. *)
Definition normalize_angle (a : R) : R :=
  a - 2 * PI * IZR (ceil ((a - PI) / (2 * PI))).

Definition canonical (a : R) : Prop := - PI < a <= PI.

(** ** Messages *)

(** [geometry_msgs::Pose2D] *)
Record Pose2D : Type := mkPose2D { x : R; y : R; theta : R }.

(** A default-constructed message has all fields zero. *)
Definition Pose2D_default : Pose2D := mkPose2D 0 0 0.

(** ** The path densifier: [OMPLPlannerBase::interpolatePathPose2D] *)

(** The planar distance computed at the top of the loop body
    ([frame_distance]); the heading is ignored. *)
Definition frame_distance (last_frame curr_frame : Pose2D) : R :=
  let dx := x curr_frame - x last_frame in
  let dy := y curr_frame - y last_frame in
  sqrt (dx * dx + dy * dy).

(** The frames pushed by the inner [for (j = 1; j <= (int) num_insertions; j++)]
    loop; empty when the two frames are close enough, and also when the
    number of insertions does not fit an [int]: the converted bound is then
    negative and the loop body never runs.  The counter [j] is an [int] as
    well, so a bound of exactly [INT_MAX] would make [j++] overflow; the
    statements about inserted frames keep the bound below [INT_MAX]. *)
Definition inserted_frames (max_dist : R) (last_frame curr_frame : Pose2D)
  : list Pose2D :=
  let diff_x := x curr_frame - x last_frame in
  let diff_y := y curr_frame - y last_frame in
  let diff_theta := normalize_angle (theta curr_frame - theta last_frame) in
  let dist := sqrt (diff_x * diff_x + diff_y * diff_y) in
  if Rgtb dist max_dist then
    let num_insertions := IZR (ceil (dist / max_dist)) in
    let diff_x := diff_x / (num_insertions + 1) in
    let diff_y := diff_y / (num_insertions + 1) in
    let diff_theta := diff_theta / (num_insertions + 1) in
    map (fun j : nat =>
           mkPose2D (x last_frame + INR j * diff_x)
                    (y last_frame + INR j * diff_y)
                    (normalize_angle (theta last_frame + INR j * diff_theta)))
        (seq 1 (Z.to_nat (int_of_double num_insertions)))
  else [].

(** One iteration of the outer loop: [last_frame] is the last element of
    [ipoPath], the interpolated frames are appended, then [curr_frame]. *)
Definition ipo_step (max_dist : R) (ipoPath : list Pose2D) (curr_frame : Pose2D)
  : list Pose2D :=
  let last_frame := last ipoPath Pose2D_default in
  ipoPath ++ inserted_frames max_dist last_frame curr_frame ++ [curr_frame].

(** The outer loop [for (i = 1; i < path_size; i++)], started from
    [ipoPath = [path[0]]]. *)
Definition ipo_loop (max_dist : R) (path : list Pose2D) : list Pose2D :=
  match path with
  | [] => []
  | first :: rest => fold_left (ipo_step max_dist) rest [first]
  end.

(** [geometry_msgs] and [std_msgs] records used by the planner. *)
Record Point : Type := mkPoint { px : R; py : R; pz : R }.
Record Quaternion : Type := mkQuaternion { qx : R; qy : R; qz : R; qw : R }.
Record Pose : Type := mkPose { position : Point; orientation : Quaternion }.
Definition Time : Type := R.
Record Header : Type := mkHeader { stamp : Time; frame_id : string }.
Record PoseStamped : Type := mkPoseStamped { header : Header; pose : Pose }.

(** ** OMPL values *)

(** A state of [ompl::base::SE2StateSpace]. *)
Record SE2State : Type := mkSE2State { getX : R; getY : R; getYaw : R }.

(** [ompl::base::RealVectorBounds]: one lower and one upper bound per
    dimension. *)
Record RealVectorBounds : Type := mkBounds { low : list R; high : list R }.

Fixpoint set_at (i : nat) (v : R) (l : list R) : list R :=
  match l, i with
  | [], _ => []
  | _ :: t, O => v :: t
  | h :: t, S i' => h :: set_at i' v t
  end.

Definition bounds_new (dim : nat) : RealVectorBounds :=
  mkBounds (repeat 0 dim) (repeat 0 dim).
Definition setLow (i : nat) (v : R) (b : RealVectorBounds) : RealVectorBounds :=
  mkBounds (set_at i v (low b)) (high b).
Definition setHigh (i : nat) (v : R) (b : RealVectorBounds) : RealVectorBounds :=
  mkBounds (low b) (set_at i v (high b)).

(** Modelled from the spec: [SE2StateSpace::satisfiesBounds] is OMPL code.
    The spec asks for an exact containment test: each position component lies
    between its bounds and the heading lies on the circle. *)
Definition satisfiesBounds (b : RealVectorBounds) (s : SE2State) : bool :=
  Rleb (nth 0 (low b) 0) (getX s) && Rleb (getX s) (nth 0 (high b) 0) &&
  Rleb (nth 1 (low b) 0) (getY s) && Rleb (getY s) (nth 1 (high b) 0) &&
  Rleb (- PI) (getYaw s) && Rleb (getYaw s) PI.

(** The nine planners [setPlannerType] can construct. *)
Inductive PlannerKind : Type :=
| EST | KPIECE1 | LBKPIECE1 | LazyRRT | pRRT | RRT | RRTConnect | pSBL | SBL.

(** What [ompl::geometric::SimpleSetup] has been given when [solve] runs; a
    planner handle that was never assigned is [None]. *)
Record SimpleSetup : Type := mkSimpleSetup {
  ss_bounds : RealVectorBounds;
  ss_checker : SE2State -> bool;
  ss_resolution : R;
  ss_start : SE2State;
  ss_goal : SE2State;
  ss_planner : option PlannerKind }.

(** ** Published messages *)

Record OMPLPlannerDiagnostics : Type := mkDiagnostics {
  summary : string;
  group : string;
  planner : string;
  result : string;
  planning_time : R;
  trajectory_size : nat;
  trajectory_duration : R }.

Record OMPLPlannerBaseStats : Type := mkStats {
  stats_start : Pose;
  stats_goal : Pose;
  start_goal_dist : R;
  path_length : R;
  total_planning_time : R }.

(** ** Events and commands *)

Inductive Level : Type := Info | Warn | Error | Fatal.

(** What a run does that its caller or the outside can observe, in order.
    [ROS_DEBUG] output is left out and log events carry the message text
    without its formatted arguments.  [CallFootprintCost] marks an entry
    into [OMPLPlannerBase::footprintCost], whether [makePlan] calls it or
    OMPL does through the validity checker it was given. *)
Inductive Event : Type :=
| RosLog (l : Level) (msg : string)
| CallFootprintCost (p : Pose2D)
| SetBounds (b : RealVectorBounds)
| SetStateValidityChecker
| SetStateValidityCheckingResolution (r : R)
| SetStartAndGoalStates (s g : SE2State)
| SetPlanner (p : option PlannerKind)
| Solve (t : R)
| SimplifySolution
| PublishDiagnostics (m : OMPLPlannerDiagnostics)
| PublishStats (m : OMPLPlannerBaseStats)
| PublishPlan (p : list PoseStamped).

Definition Trace : Type := list Event.

(** A finished call: its events and its return value. *)
Definition Fn (A : Type) : Type := (Trace * A)%type.

(** A command inside a function body whose return type is [Ret]: it either
    goes on with a value or leaves the function through [return]. *)
Inductive Exit (Ret A : Type) : Type :=
| Next (a : A)
| Return (r : Ret).
Arguments Next {Ret A} a.
Arguments Return {Ret A} r.

Definition Cmd (Ret A : Type) : Type := (Trace * Exit Ret A)%type.

Definition ret {Ret A : Type} (a : A) : Cmd Ret A := ([], Next a).

Definition bind {Ret A B : Type} (m : Cmd Ret A) (f : A -> Cmd Ret B)
  : Cmd Ret B :=
  match m with
  | (t, Next a) => let (t', e) := f a in (t ++ t', e)
  | (t, Return r) => (t, Return r)
  end.

Definition emit {Ret : Type} (e : Event) : Cmd Ret unit := ([e], Next tt).
Definition return_ {Ret A : Type} (r : Ret) : Cmd Ret A := ([], Return r).
Definition call {Ret A : Type} (f : Fn A) : Cmd Ret A := (fst f, Next (snd f)).
Definition when {Ret : Type} (b : bool) (c : Cmd Ret unit) : Cmd Ret unit :=
  if b then c else ret tt.

(** A function body always ends in a [return]; falling off the end of a
    [void] body returns the last value. *)
Definition body {Ret : Type} (c : Cmd Ret Ret) : Fn Ret :=
  match c with
  | (t, Next r) => (t, r)
  | (t, Return r) => (t, r)
  end.

Declare Scope cmd_scope.
Delimit Scope cmd_scope with cmd.
Notation "v <- c ;; k" := (bind c (fun v => k))
  (at level 61, c at next level, right associativity) : cmd_scope.
Notation "c ;; k" := (bind c (fun _ => k))
  (at level 61, right associativity) : cmd_scope.

(** ** The environment of a call *)

(** Answers of the collaborators during one call: the parameter server (an
    unset parameter is [None]), the costmap, the world model, tf, the clock,
    the memory allocator and OMPL's solver.  What the solver answers may
    depend on the validity checker, which it finds in the [SimpleSetup]. *)
Record Env : Type := mkEnv {
  param_max_dist_between_pathframes : option R;
  param_max_footprint_cost : option c_int;
  param_relative_validity_check_resolution : option R;
  param_interpolate_path : option bool;
  param_solver_maxtime : option R;
  param_global_planner_type : option string;
  param_publish_diagnostics : option bool;
  getSizeInMetersX : R;
  getSizeInMetersY : R;
  getOriginX : R;
  getOriginY : R;
  getGlobalFrameID : string;
  getInscribedRadius : R;
  getCircumscribedRadius : R;
  getRobotFootprint : list Point;
  (** [CostmapModel::footprintCost (x, y, theta, footprint, r_in, r_out)] *)
  world_footprintCost : R -> R -> R -> list Point -> R -> R -> R;
  (** the yaw that [tf]'s [getEulerYPR] reads off an orientation *)
  getEulerYaw : Quaternion -> R;
  (** [ros::Time::now ()], by the number of earlier readings in the call *)
  now : nat -> Time;
  (** contents of the [n]-th [ScopedState] allocated in the call, which its
      constructor leaves unset *)
  allocState : nat -> SE2State;
  ompl_solve : SimpleSetup -> R -> bool;
  ompl_getLastPlanComputationTime : SimpleSetup -> R;
  (** the solution path once [simplifySolution] has run *)
  ompl_getSolutionPath : SimpleSetup -> list SE2State;
  ompl_path_length : list SE2State -> R;
  (** the states [solve] hands to the validity checker, in the order of the
      calls *)
  ompl_solve_checks : SimpleSetup -> R -> list SE2State;
  (** the states [simplifySolution] hands to the validity checker *)
  ompl_simplify_checks : SimpleSetup -> list SE2State }.

(** [private_nh_.param (name, var, default)] *)
Definition param {A : Type} (value : option A) (default : A) : A :=
  match value with Some v => v | None => default end.

(** ** The planner object *)

Record OMPLPlannerBase : Type := mkPlanner {
  initialized_ : bool;
  publish_diagnostics_ : bool;
  inscribed_radius_ : R;
  circumscribed_radius_ : R;
  footprint_spec_ : list Point;
  max_dist_between_pathframes_ : R;
  max_footprint_cost_ : Z;
  (** [max_footprint_cost_] is declared [int] *)
  max_footprint_cost_range : in_int_range max_footprint_cost_ = true;
  relative_validity_check_resolution_ : R;
  interpolate_path_ : bool;
  solver_maxtime_ : R;
  planner_type_ : string }.

(** The default constructor sets [initialized_] to false; the other members
    are given their zero values here. *)
Definition OMPLPlannerBase_new : OMPLPlannerBase :=
  mkPlanner false false 0 0 [] 0 0%Z eq_refl 0 false 0 EmptyString.

Section Planner.

Variable env : Env.

Local Open Scope cmd_scope.
Local Open Scope string_scope.

(** [OMPLPlannerBase::initialize] *)
Definition initialize (self : OMPLPlannerBase) : Fn OMPLPlannerBase :=
  body (
    if negb (initialized_ self) then
      ret (mkPlanner true
             (param (param_publish_diagnostics env) true)
             (getInscribedRadius env)
             (getCircumscribedRadius env)
             (getRobotFootprint env)
             (max_dist_between_pathframes_ self)
             (max_footprint_cost_ self)
             (max_footprint_cost_range self)
             (relative_validity_check_resolution_ self)
             (interpolate_path_ self)
             (solver_maxtime_ self)
             (planner_type_ self))
    else
      emit (RosLog Warn
        "This planner has already been initialized... doing nothing") ;;
      ret self).

(** [OMPLPlannerBase::readParameters] *)
Definition readParameters (self : OMPLPlannerBase) : Fn OMPLPlannerBase :=
  body (
    let max_dist := param (param_max_dist_between_pathframes env) (10 / 100)%R in
    let max_cost := param (param_max_footprint_cost env) int_256 in
    let with_dist (d : R) :=
      mkPlanner (initialized_ self) (publish_diagnostics_ self)
        (inscribed_radius_ self) (circumscribed_radius_ self)
        (footprint_spec_ self)
        d
        (int_val max_cost) (int_range max_cost)
        (param (param_relative_validity_check_resolution env) (4 / 1000)%R)
        (param (param_interpolate_path env) true)
        (param (param_solver_maxtime env) 1%R)
        (planner_type_ self) in
    if Rleb max_dist 0 then
      emit (RosLog Warn
        "Assigned Distance for interpolation of path-frames invalid. Distance must be greater to 0. Distance set to default value: 0.10") ;;
      ret (with_dist (10 / 100)%R)
    else ret (with_dist max_dist)).

(** [OMPLPlannerBase::footprintCost] *)
Definition footprintCost (self : OMPLPlannerBase) (p : Pose2D) : Fn R :=
  body (
    emit (CallFootprintCost p) ;;
    when (List.length (footprint_spec_ self) <? 3)%nat
      (emit (RosLog Error "We have no footprint... do nothing") ;;
       return_ (-1)%R) ;;
    ret (world_footprintCost env (x p) (y p) (theta p)
           (footprint_spec_ self)
           (inscribed_radius_ self) (circumscribed_radius_ self))).

(** The five overloads of [convert]. *)
Definition convert_State_Pose2D (s : SE2State) : Pose2D :=
  mkPose2D (getX s) (getY s) (normalize_angle (getYaw s)).

Definition convert_ScopedState_Pose2D (s : SE2State) : Pose2D :=
  mkPose2D (getX s) (getY s) (normalize_angle (getYaw s)).

Definition convert_Pose2D_ScopedState (p : Pose2D) : SE2State :=
  mkSE2State (x p) (y p) (theta p).

Definition convert_Pose_Pose2D (p : Pose) : Pose2D :=
  mkPose2D (px (position p)) (py (position p))
           (normalize_angle (getEulerYaw env (orientation p))).

(** Modelled from the spec: [tf::createQuaternionFromYaw] is tf code; a
    rotation by [yaw] about the vertical axis. *)
Definition createQuaternionFromYaw (yaw : R) : Quaternion :=
  mkQuaternion 0 0 (sin (yaw / 2)) (cos (yaw / 2)).

Definition convert_Pose2D_Pose (p : Pose2D) : Pose :=
  let frame_quat := createQuaternionFromYaw (theta p) in
  mkPose (mkPoint (x p) (y p) 0)
         (mkQuaternion (qx frame_quat) (qy frame_quat)
                       (qz frame_quat) (qw frame_quat)).

(** [OMPLPlannerBase::isStateValid2DGrid] *)
Definition isStateValid2DGrid (self : OMPLPlannerBase) (state : SE2State)
  : Fn bool :=
  body (
    let checked_state := convert_State_Pose2D state in
    costs <- call (footprintCost self checked_state) ;;
    ret (Rgeb costs 0 && Rltb costs (IZR (max_footprint_cost_ self)))).

(** The calls of the validity checker that OMPL makes for the states it
    examines, one after the other. *)
Definition checker_calls (self : OMPLPlannerBase) (states : list SE2State)
  : Fn (list bool) :=
  (flat_map (fun s => fst (isStateValid2DGrid self s)) states,
   map (fun s => snd (isStateValid2DGrid self s)) states).

(** [OMPLPlannerBase::interpolatePathPose2D]; the second component is the
    vector [path] when the call returns. *)
Definition interpolatePathPose2D (self : OMPLPlannerBase) (path : list Pose2D)
  : Fn (bool * list Pose2D) :=
  body (
    let path_size := List.length path in
    when (path_size <? 2)%nat
      (emit (RosLog Error
         "Path is not valid. It has only %d Elements. Interpolation not possible. Aborting.") ;;
       return_ (false, path)) ;;
    let ipoPath := ipo_loop (max_dist_between_pathframes_ self) path in
    ret (true, ipoPath)).

(** The planner a name stands for in the [if]/[else if] chain of
    [setPlannerType]. *)
Definition planner_of_name (name : string) : option PlannerKind :=
  if String.eqb name "EST" then Some EST
  else if String.eqb name "KPIECE" then Some KPIECE1
  else if String.eqb name "LBKPIECE" then Some LBKPIECE1
  else if String.eqb name "LazyRRT" then Some LazyRRT
  else if String.eqb name "pRRT" then Some pRRT
  else if String.eqb name "RRT" then Some RRT
  else if String.eqb name "RRTConnect" then Some RRTConnect
  else if String.eqb name "pSBL" then Some pSBL
  else if String.eqb name "SBL" then Some SBL
  else None.

(** [OMPLPlannerBase::setPlannerType]; returns the object, whose
    [planner_type_] it writes, and the handle given to [setPlanner]. *)
Definition setPlannerType (self : OMPLPlannerBase)
  : Fn (OMPLPlannerBase * option PlannerKind) :=
  body (
    let default_planner := "LBKPIECE" in
    let name := param (param_global_planner_type env) default_planner in
    let self :=
      mkPlanner (initialized_ self) (publish_diagnostics_ self)
        (inscribed_radius_ self) (circumscribed_radius_ self)
        (footprint_spec_ self) (max_dist_between_pathframes_ self)
        (max_footprint_cost_ self) (max_footprint_cost_range self)
        (relative_validity_check_resolution_ self)
        (interpolate_path_ self) (solver_maxtime_ self) name in
    let target_planner_ptr := planner_of_name name in
    when (match target_planner_ptr with None => true | Some _ => false end)
      (emit (RosLog Fatal
         "The planner named [%s] passed in global_planner_type is not supported")) ;;
    emit (SetPlanner target_planner_ptr) ;;
    ret (self, target_planner_ptr)).

(** [OMPLPlannerBase::publishPlan] *)
Definition publishPlan (path : list PoseStamped) : Fn unit :=
  body (
    when (match path with [] => true | _ => false end)
      (emit (RosLog Info "Plan is empty - Nothing to display") ;;
       return_ tt) ;;
    emit (PublishPlan path)).

(** The bounds [makePlan] derives from the costmap (the block that fills
    [bounds] before [setBounds]). *)
Definition map_bounds : RealVectorBounds :=
  let bounds := bounds_new 2 in
  let map_upperbound := (getSizeInMetersX env - getOriginX env)%R in
  let map_lowerbound := (map_upperbound - getSizeInMetersX env)%R in
  let bounds := setHigh 0 map_upperbound bounds in
  let bounds := setLow 0 map_lowerbound bounds in
  let map_upperbound := (getSizeInMetersY env - getOriginY env)%R in
  let map_lowerbound := (map_upperbound - getSizeInMetersY env)%R in
  let bounds := setHigh 1 map_upperbound bounds in
  let bounds := setLow 1 map_lowerbound bounds in
  bounds.

(** The test [makePlan] applies to the footprint cost of the goal and of the
    start: the cost is stored in an [int] first. *)
Definition endpoint_in_collision (self : OMPLPlannerBase) (cost : R) : bool :=
  let sample_costs := int_of_double cost in
  Rltb (IZR sample_costs) 0 || (sample_costs >? max_footprint_cost_ self)%Z.

(** The second conversion loop of [makePlan]: [num_frames_inpath] stamped
    poses, the [i]-th read from [temp_plan_Pose2D[i]]. *)
Definition stamped_plan (num_frames_inpath : nat) (temp_plan_Pose2D : list Pose2D)
  : list PoseStamped :=
  map (fun i : nat =>
         mkPoseStamped
           (mkHeader (now env (1 + i)) (getGlobalFrameID env))
           (convert_Pose2D_Pose (nth i temp_plan_Pose2D Pose2D_default)))
      (seq 0 num_frames_inpath).

(** [OMPLPlannerBase::makePlan]; the second component of the result is the
    vector [plan] when the call returns.  The members written on the way are
    read afresh from the parameter server by the next call, so the object is
    not handed back.

    The two calls [convert (ompl_scoped_state_start, start2D)] and
    [convert (ompl_scoped_state_goal, goal2D)] pass a [ScopedState] first and
    a [Pose2D] second, so of the five overloads they select the one that
    reads the state into the pose: the freshly allocated states keep their
    contents and [start2D], [goal2D] are overwritten (and not read again).

    [solve] and [simplifySolution] call back into the validity checker
    that was registered with [setStateValidityChecker]; these calls are
    part of the run, after the [Solve] and the [SimplifySolution] event. *)
Definition makePlan (self : OMPLPlannerBase) (start goal : PoseStamped)
    (plan : list PoseStamped) : Fn (bool * list PoseStamped) :=
  body (
    when (negb (initialized_ self))
      (emit (RosLog Error
         "The planner has not been initialized, please call initialize() to use the planner") ;;
       return_ (false, plan)) ;;
    self <- call (readParameters self) ;;
    let plan : list PoseStamped := [] in
    when (negb (String.eqb (frame_id (header goal)) (getGlobalFrameID env)))
      (emit (RosLog Error
         "This planner as configured will only accept goals in the %s frame, but a goal was sent in the %s frame.") ;;
       return_ (false, plan)) ;;
    let start_time := now env 0 in
    let bounds := map_bounds in
    emit (RosLog Info
      "Setting upper and lower bounds of map x-coordinate to (%f, %f).") ;;
    emit (RosLog Info
      "Setting upper and lower bounds of map y-coordinate to (%f, %f).") ;;
    emit (SetBounds bounds) ;;
    emit SetStateValidityChecker ;;
    emit (SetStateValidityCheckingResolution
            (relative_validity_check_resolution_ self)) ;;
    let start2D := convert_Pose_Pose2D (pose start) in
    let goal2D := convert_Pose_Pose2D (pose goal) in
    cost <- call (footprintCost self goal2D) ;;
    when (endpoint_in_collision self cost)
      (emit (RosLog Error
         "Collision on target: Planning aborted! Change target position.") ;;
       return_ (false, plan)) ;;
    cost <- call (footprintCost self start2D) ;;
    when (endpoint_in_collision self cost)
      (emit (RosLog Error
         "Collision on start: Planning aborted! Free start position.") ;;
       return_ (false, plan)) ;;
    let diff_X := (x goal2D - x start2D)%R in
    let diff_Y := (y goal2D - y start2D)%R in
    let dist := sqrt (diff_X * diff_X + diff_Y * diff_Y) in
    let ompl_scoped_state_start := allocState env 0 in
    when (negb (satisfiesBounds bounds ompl_scoped_state_start))
      (emit (RosLog Error
         "Start Pose lies outside the bounds of the map - Aborting Planer") ;;
       return_ (false, plan)) ;;
    let ompl_scoped_state_goal := allocState env 1 in
    when (negb (satisfiesBounds bounds ompl_scoped_state_goal))
      (emit (RosLog Error
         "Target Pose lies outside the bounds of the map - Aborting Planer") ;;
       return_ (false, plan)) ;;
    emit (SetStartAndGoalStates ompl_scoped_state_start ompl_scoped_state_goal) ;;
    chosen <- call (setPlannerType self) ;;
    let self := fst chosen in
    let simple_setup :=
      mkSimpleSetup bounds
        (fun s => snd (isStateValid2DGrid self s))
        (relative_validity_check_resolution_ self)
        ompl_scoped_state_start ompl_scoped_state_goal (snd chosen) in
    emit (Solve (solver_maxtime_ self)) ;;
    call (checker_calls self
            (ompl_solve_checks env simple_setup (solver_maxtime_ self))) ;;
    let solved := ompl_solve env simple_setup (solver_maxtime_ self) in
    let msg_diag_ompl (size : nat) :=
      mkDiagnostics
        (if solved then "Planning success" else "Planning Failed")
        "base"
        (planner_type_ self)
        (if solved then "success" else "failed")
        (ompl_getLastPlanComputationTime env simple_setup)
        size 0 in
    when (negb solved)
      (emit (RosLog Warn "No path found") ;;
       when (publish_diagnostics_ self)
         (emit (PublishDiagnostics (msg_diag_ompl 0%nat))) ;;
       return_ (false, plan)) ;;
    emit SimplifySolution ;;
    call (checker_calls self (ompl_simplify_checks env simple_setup)) ;;
    let ompl_path := ompl_getSolutionPath env simple_setup in
    when (publish_diagnostics_ self)
      (emit (PublishDiagnostics (msg_diag_ompl (List.length ompl_path)))) ;;
    let num_frames_inpath := List.length ompl_path in
    let temp_plan_Pose2D := map convert_State_Pose2D ompl_path in
    temp_plan_Pose2D <-
      (if interpolate_path_ self then
         ipo <- call (interpolatePathPose2D self temp_plan_Pose2D) ;;
         when (negb (fst ipo))
           (emit (RosLog Error
              "Something went wrong during interpolation. Probably plan empty. Aborting!") ;;
            return_ (false, plan)) ;;
         ret (snd ipo)
       else ret temp_plan_Pose2D) ;;
    let temp_plan := stamped_plan num_frames_inpath temp_plan_Pose2D in
    emit (RosLog Info "Global planning finished: Path Found.") ;;
    let plan := temp_plan in
    call (publishPlan plan) ;;
    when (publish_diagnostics_ self)
      (emit (PublishStats
         (mkStats (pose start) (pose goal) dist
            (ompl_path_length env ompl_path)
            (now env (1 + num_frames_inpath) - start_time)%R))) ;;
    return_ (true, plan)).

End Planner.


(** ** Predicates of the statements *)

(** Every two neighbours of a path are at most [max_dist] apart. *)
Definition spaced (max_dist : R) (l : list Pose2D) : Prop :=
  forall (i : nat) (a b : Pose2D),
    nth_error l i = Some a -> nth_error l (S i) = Some b ->
    frame_distance a b <= max_dist.

(** The same, read along the list from a frame [a] that precedes it. *)
Fixpoint chain (max_dist : R) (a : Pose2D) (l : list Pose2D) : Prop :=
  match l with
  | [] => True
  | b :: t => frame_distance a b <= max_dist /\ chain max_dist b t
  end.

(** Between every two neighbours of a path the densifier has fewer than
    [INT_MAX] frames to insert ([ceil (dist / max_dist)] of them), so the
    bound of its inner loop fits an [int]. *)
Definition insertions_fit (max_dist : R) (l : list Pose2D) : Prop :=
  forall (i : nat) (a b : Pose2D),
    nth_error l i = Some a -> nth_error l (S i) = Some b ->
    (ceil (frame_distance a b / max_dist) < INT_MAX)%Z.

(** The same, read along the list from a frame [a] that precedes it. *)
Fixpoint fit_chain (max_dist : R) (a : Pose2D) (l : list Pose2D) : Prop :=
  match l with
  | [] => True
  | b :: t => (ceil (frame_distance a b / max_dist) < INT_MAX)%Z /\
              fit_chain max_dist b t
  end.

(** All headings of a path are canonical. *)
Definition headings_canonical (l : list Pose2D) : Prop :=
  Forall (fun p => canonical (theta p)) l.

(** The names [setPlannerType] compares [planner_type_] with. *)
Definition supported_names : list string :=
  ["EST"; "KPIECE"; "LBKPIECE"; "LazyRRT"; "pRRT"; "RRT"; "RRTConnect";
   "pSBL"; "SBL"]%string.

(** The planner name [setPlannerType] reads from the parameter server. *)
Definition planner_name (env : Env) : string :=
  param (param_global_planner_type env) "LBKPIECE"%string.

(** Kinds of events. *)
Definition is_planner_event (e : Event) : bool :=
  match e with SetPlanner _ | Solve _ => true | _ => false end.

Definition is_fatal (e : Event) : bool :=
  match e with RosLog Fatal _ => true | _ => false end.

Definition is_set_bounds (e : Event) : bool :=
  match e with SetBounds _ => true | _ => false end.

Definition is_set_checker (e : Event) : bool :=
  match e with SetStateValidityChecker => true | _ => false end.

Definition is_cost_call (e : Event) : bool :=
  match e with CallFootprintCost _ => true | _ => false end.

(** No planner is selected or run in the trace. *)
Definition planner_untouched (t : Trace) : bool :=
  negb (existsb is_planner_event t).

(** No event of kind [q] comes before the first event of kind [p]. *)
Fixpoint not_before (q p : Event -> bool) (t : Trace) : bool :=
  match t with
  | [] => true
  | e :: t' => if p e then true else if q e then false else not_before q p t'
  end.

(** The endpoint test of [makePlan] on the pose of a request: the footprint
    cost of the pose, asked with the parameters just read, is in collision. *)
Definition endpoint_rejected (env : Env) (self : OMPLPlannerBase)
    (p : PoseStamped) : bool :=
  let self1 := snd (readParameters env self) in
  endpoint_in_collision self1
    (snd (footprintCost env self1 (convert_Pose_Pose2D env (pose p)))).

(** The request passes every check [makePlan] makes before it chooses a
    planner. *)
Definition accepted (env : Env) (self : OMPLPlannerBase)
    (start goal : PoseStamped) : Prop :=
  initialized_ self = true /\
  String.eqb (frame_id (header goal)) (getGlobalFrameID env) = true /\
  endpoint_rejected env self goal = false /\
  endpoint_rejected env self start = false /\
  satisfiesBounds (map_bounds env) (allocState env 0) = true /\
  satisfiesBounds (map_bounds env) (allocState env 1) = true.

(** The position of a stamped pose. *)
Definition planar (p : PoseStamped) : R * R :=
  (px (position (pose p)), py (position (pose p))).

(** ** Sample requests

    Concrete environments and requests at which the statements below are
    evaluated. *)

Definition identity_orientation : Quaternion := mkQuaternion 0 0 0 1.

Definition pose_at (px py : R) (frame : string) : PoseStamped :=
  mkPoseStamped (mkHeader 0 frame)
                (mkPose (mkPoint px py 0) identity_orientation).

(** A triangular footprint. *)
Definition triangle : list Point :=
  [mkPoint 1 0 0; mkPoint (-1) 1 0; mkPoint (-1) (-1) 0].

(** A square map in frame [map]; the arguments choose the planner name, the
    footprint, the map's origin and size on both axes, the footprint cost at
    a position, the frame spacing and the solver's answer.  The other
    parameters are left unset, so they take their defaults.  Fresh states
    hold zeros.  The solver checks the start and the goal state it was
    given, the simplifier the states of the solution. *)
Definition sample_env (planner_name : string) (footprint : list Point)
    (origin size : R) (cost : R -> R -> R) (spacing : R)
    (solved : bool) (solution : list SE2State) : Env :=
  mkEnv (Some spacing) None None None None (Some planner_name) None
        size size origin origin "map"%string
        (1 / 2) 1 footprint
        (fun px py _ _ _ _ => cost px py)
        (fun q => 2 * atan (qz q / qw q))
        (fun n => INR n)
        (fun _ => mkSE2State 0 0 0)
        (fun _ _ => solved)
        (fun _ => 1 / 10)
        (fun _ => solution)
        (fun _ => 0)
        (fun ss _ => [ss_start ss; ss_goal ss])
        (fun _ => solution).

(** The planner object after [initialize] and [readParameters]. *)
Definition configured (env : Env) : OMPLPlannerBase :=
  snd (readParameters env (snd (initialize env OMPLPlannerBase_new))).

Definition free_space : R -> R -> R := fun _ _ => 0.

(** A two-frame path along the x axis, ten units long, as poses and as the
    planner's states. *)
Definition straight_path : list Pose2D := [mkPose2D 0 0 0; mkPose2D 10 0 0].
Definition straight_solution : list SE2State :=
  [mkSE2State 0 0 0; mkSE2State 10 0 0].

(** [straight_path] densified at spacing 3. *)
Definition straight_dense : list Pose2D :=
  [mkPose2D 0 0 0; mkPose2D 2 0 0; mkPose2D 4 0 0;
   mkPose2D 6 0 0; mkPose2D 8 0 0; mkPose2D 10 0 0].

(** A two-frame path one unit long. *)
Definition short_path : list Pose2D := [mkPose2D 0 0 0; mkPose2D 1 0 0].

(** A 20 by 20 map with its origin at zero, spacing 3; the planner finds
    [straight_solution]. *)
Definition straight_env : Env :=
  sample_env "LBKPIECE" triangle 0 20 free_space 3 true straight_solution.

(** The request from (0, 0) to (10, 0) in [straight_env]. *)
Definition straight_run : Fn (bool * list PoseStamped) :=
  makePlan straight_env (configured straight_env)
           (pose_at 0 0 "map") (pose_at 10 0 "map") [].

(** The same map with a frame spacing of one nanometre. *)
Definition fine_env : Env :=
  sample_env "LBKPIECE" triangle 0 20 free_space (1 / 1000000000) true
             straight_solution.

(** A 10 by 10 map centred on the origin of its frame. *)
Definition centred_env : Env :=
  sample_env "LBKPIECE" triangle (-5) 10 free_space 3 true straight_solution.

(** No footprint configured. *)
Definition no_footprint_env : Env :=
  sample_env "LBKPIECE" [] 0 20 free_space 3 true straight_solution.

(** An unsupported planner name. *)
Definition bogus_env : Env :=
  sample_env "Bogus" triangle 0 20 free_space 3 true straight_solution.

(** Footprint cost [c] on the half plane [5 <= x], zero elsewhere. *)
Definition costly_right (c : R) : R -> R -> R :=
  fun px _ => if Rleb 5 px then c else 0.

Definition threshold_env (c : R) : Env :=
  sample_env "LBKPIECE" triangle 0 20 (costly_right c) 3 true straight_solution.

(** A request across the cost step of [threshold_env]: the start has cost
    zero, the goal has cost [c]. *)
Definition threshold_run (c : R) : Fn (bool * list PoseStamped) :=
  makePlan (threshold_env c) (configured (threshold_env c))
           (pose_at 1 1 "map") (pose_at 10 1 "map") [].

(** The goal of [threshold_run] as a state of the planner. *)
Definition threshold_goal : SE2State := mkSE2State 10 1 0.

(** ** Further definitions for the statements *)

(** The constructor [OMPLPlannerBase (name, costmap_ros)]: a fresh object,
    then [initialize]. *)
Definition OMPLPlannerBase_init (env : Env) : Fn OMPLPlannerBase :=
  initialize env OMPLPlannerBase_new.

Definition is_publish_diagnostics (e : Event) : bool :=
  match e with PublishDiagnostics _ => true | _ => false end.

Definition is_publish_stats (e : Event) : bool :=
  match e with PublishStats _ => true | _ => false end.

Definition is_publish_plan (e : Event) : bool :=
  match e with PublishPlan _ => true | _ => false end.

(** The sum of the planar distances between the neighbours of a path. *)
Fixpoint planar_length (l : list Pose2D) : R :=
  match l with
  | [] => 0
  | a :: t =>
      match t with
      | [] => 0
      | b :: _ => frame_distance a b + planar_length t
      end
  end.

(** [l1] is [l2] with some frames left out, the others in their order. *)
Inductive subsequence : list Pose2D -> list Pose2D -> Prop :=
| subsequence_nil : forall l, subsequence [] l
| subsequence_keep : forall a l1 l2,
    subsequence l1 l2 -> subsequence (a :: l1) (a :: l2)
| subsequence_skip : forall a l1 l2,
    subsequence l1 l2 -> subsequence l1 (a :: l2).

(** A unit quaternion that turns about the vertical axis. *)
Definition vertical_unit (q : Quaternion) : Prop :=
  qx q = 0 /\ qy q = 0 /\ qz q * qz q + qw q * qw q = 1.

(** A pose of a plan as [makePlan] builds it: in the costmap's frame, on the
    ground plane, turned about the vertical axis only. *)
Definition well_formed_pose (env : Env) (p : PoseStamped) : Prop :=
  frame_id (header p) = getGlobalFrameID env /\
  pz (position (pose p)) = 0 /\
  vertical_unit (orientation (pose p)).

(** The position of a planner state and of a frame. *)
Definition state_position (s : SE2State) : R * R := (getX s, getY s).
Definition frame_position (p : Pose2D) : R * R := (x p, y p).

(** The environment with [interpolate_path] set on the parameter server. *)
Definition with_interpolate_path (b : bool) (env : Env) : Env :=
  mkEnv (param_max_dist_between_pathframes env)
        (param_max_footprint_cost env)
        (param_relative_validity_check_resolution env)
        (Some b)
        (param_solver_maxtime env)
        (param_global_planner_type env)
        (param_publish_diagnostics env)
        (getSizeInMetersX env) (getSizeInMetersY env)
        (getOriginX env) (getOriginY env) (getGlobalFrameID env)
        (getInscribedRadius env) (getCircumscribedRadius env)
        (getRobotFootprint env)
        (world_footprintCost env) (getEulerYaw env) (now env)
        (allocState env) (ompl_solve env)
        (ompl_getLastPlanComputationTime env)
        (ompl_getSolutionPath env) (ompl_path_length env)
        (ompl_solve_checks env) (ompl_simplify_checks env).

(** The planner finds nothing. *)
Definition unsolved_env : Env :=
  sample_env "LBKPIECE" triangle 0 20 free_space 3 false [].

(** The planner answers with a path of one state. *)
Definition single_state_env : Env :=
  sample_env "LBKPIECE" triangle 0 20 free_space 3 true [mkSE2State 0 0 0].

(** The planner answers with a path that is dense already. *)
Definition short_solution : list SE2State :=
  [mkSE2State 0 0 0; mkSE2State 1 0 0].
Definition short_env : Env :=
  sample_env "LBKPIECE" triangle 0 20 free_space 3 true short_solution.

(** The planar length of [a :: l]. *)
Fixpoint run_length (a : Pose2D) (l : list Pose2D) : R :=
  match l with
  | [] => 0
  | b :: t => frame_distance a b + run_length b t
  end.

(** The name each planner goes by in [setPlannerType]. *)
Definition name_of_planner (k : PlannerKind) : string :=
  match k with
  | EST => "EST"
  | KPIECE1 => "KPIECE"
  | LBKPIECE1 => "LBKPIECE"
  | LazyRRT => "LazyRRT"
  | pRRT => "pRRT"
  | RRT => "RRT"
  | RRTConnect => "RRTConnect"
  | pSBL => "pSBL"
  | SBL => "SBL"
  end%string.

Definition is_simplify (e : Event) : bool :=
  match e with SimplifySolution => true | _ => false end.

(** What a diagnostics message of [makePlan] looks like: either it reports
    success, or it reports a failure with an empty trajectory. *)
Definition diagnostics_consistent (env : Env) (m : OMPLPlannerDiagnostics)
  : Prop :=
  group m = "base"%string /\
  planner m = planner_name env /\
  trajectory_duration m = 0 /\
  ((summary m = "Planning success"%string /\ result m = "success"%string) \/
   (summary m = "Planning Failed"%string /\ result m = "failed"%string /\
    trajectory_size m = 0%nat)).
(** * Properties *)

(** ** Rounding and angles *)

Lemma ceil_bounds (r : R) : r <= IZR (ceil r) < r + 1.
Proof.
  unfold ceil. rewrite opp_IZR.
  destruct (base_Int_part (- r)) as [Hle Hgt]. lra.
Qed.

Lemma ceil_unique (r : R) (z : Z) : r <= IZR z < r + 1 -> ceil r = z.
Proof.
  intros [Hle Hlt]. unfold ceil.
  assert (H : (- z)%Z = Int_part (- r)).
  { apply Int_part_spec. rewrite opp_IZR. lra. }
  lia.
Qed.

Lemma ceil_IZR (z : Z) : ceil (IZR z) = z.
Proof. apply ceil_unique. lra. Qed.

Lemma floor_unique (r : R) (z : Z) : IZR z <= r < IZR z + 1 -> floor r = z.
Proof.
  intros [Hle Hlt]. unfold floor. symmetry. apply Int_part_spec. lra.
Qed.

Lemma floor_IZR (z : Z) : floor (IZR z) = z.
Proof. apply floor_unique. lra. Qed.

Lemma truncate_IZR (z : Z) : truncate (IZR z) = z.
Proof.
  unfold truncate.
  destruct (Rle_dec 0 (IZR z)); [apply floor_IZR | apply ceil_IZR].
Qed.

Lemma in_int_range_spec (z : Z) :
  in_int_range z = true <-> (INT_MIN <= z <= INT_MAX)%Z.
Proof. unfold in_int_range. rewrite andb_true_iff, !Z.leb_le. reflexivity. Qed.

(** An integer that fits an [int] converts to itself; one that does not
    converts to [INT_MIN]. *)
Lemma int_of_double_IZR (z : Z) :
  in_int_range z = true -> int_of_double (IZR z) = z.
Proof.
  intros H. unfold int_of_double. rewrite truncate_IZR, H. reflexivity.
Qed.

Lemma int_of_double_overflow (z : Z) :
  in_int_range z = false -> int_of_double (IZR z) = INT_MIN.
Proof.
  intros H. unfold int_of_double. rewrite truncate_IZR, H. reflexivity.
Qed.

(** A converted value is the truncation, unless it is [INT_MIN]. *)
Lemma int_of_double_cases (d : R) :
  (int_of_double d = truncate d /\ in_int_range (truncate d) = true) \/
  int_of_double d = INT_MIN.
Proof.
  unfold int_of_double. destruct (in_int_range (truncate d)); auto.
Qed.

Lemma Rltb_true (a b : R) : a < b -> Rltb a b = true.
Proof. intros H. unfold Rltb. destruct (Rlt_dec a b); [reflexivity | lra]. Qed.

Lemma Rltb_false (a b : R) : b <= a -> Rltb a b = false.
Proof. intros H. unfold Rltb. destruct (Rlt_dec a b); [lra | reflexivity]. Qed.

Lemma Rleb_true (a b : R) : a <= b -> Rleb a b = true.
Proof. intros H. unfold Rleb. destruct (Rle_dec a b); [reflexivity | lra]. Qed.

Lemma Rleb_false (a b : R) : b < a -> Rleb a b = false.
Proof. intros H. unfold Rleb. destruct (Rle_dec a b); [lra | reflexivity]. Qed.

Lemma Rltb_spec (a b : R) : Rltb a b = true <-> a < b.
Proof.
  unfold Rltb. destruct (Rlt_dec a b); split; intros; try easy.
Qed.

Lemma Rleb_spec (a b : R) : Rleb a b = true <-> a <= b.
Proof.
  unfold Rleb. destruct (Rle_dec a b); split; intros; try easy.
Qed.

Lemma normalize_angle_canonical (a : R) : canonical (normalize_angle a).
Proof.
  unfold canonical, normalize_angle.
  pose proof PI_RGT_0 as Hpi.
  destruct (ceil_bounds ((a - PI) / (2 * PI))) as [Hlo Hhi].
  set (k := IZR (ceil ((a - PI) / (2 * PI)))) in *.
  assert (Hq : (a - PI) / (2 * PI) * (2 * PI) = a - PI) by (field; lra).
  assert (H1 : a - PI <= k * (2 * PI)).
  { rewrite <- Hq. apply Rmult_le_compat_r; lra. }
  assert (H2 : k * (2 * PI) < a - PI + 2 * PI).
  { replace (a - PI + 2 * PI) with (((a - PI) / (2 * PI) + 1) * (2 * PI))
      by (field; lra).
    apply Rmult_lt_compat_r; lra. }
  lra.
Qed.

Lemma normalize_angle_id (a : R) : canonical a -> normalize_angle a = a.
Proof.
  intros [Hlo Hhi]. unfold normalize_angle.
  pose proof PI_RGT_0 as Hpi.
  rewrite (ceil_unique _ 0%Z); [lra |].
  assert (Hq : (a - PI) / (2 * PI) * (2 * PI) = a - PI) by (field; lra).
  split.
  - apply Rmult_le_reg_r with (2 * PI); lra.
  - apply Rmult_lt_reg_r with (2 * PI); lra.
Qed.

(** ** The densifier *)

Lemma spaced_chain (m : R) (a : Pose2D) (l : list Pose2D) :
  spaced m (a :: l) <-> chain m a l.
Proof.
  revert a. induction l as [| b t IH]; intros a; split; intros H.
  - exact I.
  - intros i p q Hp Hq. simpl in Hq. destruct i; discriminate.
  - split.
    + apply (H 0%nat a b); reflexivity.
    + apply IH. intros i p q Hp Hq. apply (H (S i) p q); assumption.
  - destruct H as [Hab Ht]. intros [| i] p q Hp Hq.
    + simpl in Hp, Hq. injection Hp as <-. injection Hq as <-. exact Hab.
    + apply IH in Ht. apply (Ht i p q); assumption.
Qed.

Lemma last_cons_default (h : Pose2D) (t : list Pose2D) (d : Pose2D) :
  last (h :: t) d = last t h.
Proof.
  revert h d. induction t as [| c u IH]; intros h d.
  - reflexivity.
  - change (last (h :: c :: u) d) with (last (c :: u) d).
    rewrite (IH c d). symmetry. apply IH.
Qed.

Lemma chain_app (m : R) (a : Pose2D) (l1 l2 : list Pose2D) :
  chain m a (l1 ++ l2) <-> chain m a l1 /\ chain m (last l1 a) l2.
Proof.
  revert a. induction l1 as [| b t IH]; intros a.
  - simpl. tauto.
  - change (chain m a ((b :: t) ++ l2))
      with (frame_distance a b <= m /\ chain m b (t ++ l2)).
    rewrite IH.
    rewrite last_cons_default. simpl. tauto.
Qed.

(** Frames whose coordinates differ by [(dx, dy)] are [sqrt (dx² + dy²)]
    apart. *)
Lemma frame_distance_diff (a b : Pose2D) (dx dy : R) :
  x b - x a = dx -> y b - y a = dy ->
  frame_distance a b = sqrt (dx * dx + dy * dy).
Proof. intros <- <-. reflexivity. Qed.

(** One of the [n + 1] equal sub-steps of a gap of length [sqrt (dx² + dy²)]
    is at most [m] long as soon as the gap is at most [m * n]. *)
Lemma substep_le (m dx dy n : R) :
  0 < m -> 0 <= n -> sqrt (dx * dx + dy * dy) <= m * n ->
  sqrt (dx / (n + 1) * (dx / (n + 1)) + dy / (n + 1) * (dy / (n + 1))) <= m.
Proof.
  intros Hm Hn Hd.
  set (q := / (n + 1)).
  assert (Hq : 0 < q) by (apply Rinv_0_lt_compat; lra).
  assert (Hq1 : q * (n + 1) = 1) by (unfold q; field; lra).
  assert (Hs : 0 <= dx * dx + dy * dy) by nra.
  replace (dx / (n + 1) * (dx / (n + 1)) + dy / (n + 1) * (dy / (n + 1)))
    with ((dx * dx + dy * dy) * (q * q)) by (unfold q, Rdiv; ring).
  rewrite sqrt_mult; [| exact Hs | nra].
  rewrite (sqrt_square q) by lra.
  set (d := sqrt (dx * dx + dy * dy)) in *.
  assert (Hd0 : 0 <= d) by apply sqrt_pos.
  assert (Hnq : n * q <= 1) by nra.
  assert (H1 : d * q <= m * n * q) by (apply Rmult_le_compat_r; lra).
  assert (H2 : m * n * q <= m * 1).
  { rewrite Rmult_assoc. apply Rmult_le_compat_l; lra. }
  lra.
Qed.

(** Frames laid out at multiples [S s, S s + 1, ...] of a step [(dx, dy)]
    from [(lx, ly)]: neighbours are one step apart, and the last one sits at
    multiple [s + n]. *)
Lemma affine_chain (m lx ly dx dy : R) (g : nat -> R) (n : nat) :
  sqrt (dx * dx + dy * dy) <= m ->
  forall (s : nat) (a : Pose2D),
    x a = lx + INR s * dx -> y a = ly + INR s * dy ->
    let f := fun j : nat =>
               mkPose2D (lx + INR j * dx) (ly + INR j * dy) (g j) in
    chain m a (map f (seq (S s) n)) /\
    x (last (map f (seq (S s) n)) a) = lx + INR (s + n) * dx /\
    y (last (map f (seq (S s) n)) a) = ly + INR (s + n) * dy.
Proof.
  intros Hstep. induction n as [| n IH]; intros s a Hx Hy f.
  - simpl. rewrite Nat.add_0_r. auto.
  - change (seq (S s) (S n)) with (S s :: seq (S (S s)) n).
    change (map f (S s :: seq (S (S s)) n))
      with (f (S s) :: map f (seq (S (S s)) n)).
    rewrite last_cons_default.
    destruct (IH (S s) (f (S s)) eq_refl eq_refl) as [Hc [Hlx Hly]].
    fold f in Hc, Hlx, Hly.
    replace (s + S n)%nat with (S s + n)%nat by lia.
    split; [| split; assumption].
    split; [| exact Hc].
    rewrite (frame_distance_diff a (f (S s)) dx dy); [exact Hstep | |].
    + unfold f. cbn [x]. rewrite Hx, S_INR. ring.
    + unfold f. cbn [y]. rewrite Hy, S_INR. ring.
Qed.

Lemma insertions_fit_chain (m : R) (a : Pose2D) (l : list Pose2D) :
  insertions_fit m (a :: l) <-> fit_chain m a l.
Proof.
  revert a. induction l as [| b t IH]; intros a; split; intros H.
  - exact I.
  - intros i p q Hp Hq. simpl in Hq. destruct i; discriminate.
  - split.
    + apply (H 0%nat a b); reflexivity.
    + apply IH. intros i p q Hp Hq. apply (H (S i) p q); assumption.
  - destruct H as [Hab Ht]. intros [| i] p q Hp Hq.
    + simpl in Hp, Hq. injection Hp as <-. injection Hq as <-. exact Hab.
    + apply IH in Ht. apply (Ht i p q); assumption.
Qed.

(** What one pass of the outer loop appends keeps the spacing, counted from
    the frame the pass started from, when the number of insertions fits. *)
Lemma inserted_frames_chain (m : R) (last_frame curr_frame : Pose2D) :
  0 < m ->
  (ceil (frame_distance last_frame curr_frame / m) < INT_MAX)%Z ->
  chain m last_frame (inserted_frames m last_frame curr_frame ++ [curr_frame]).
Proof.
  intros Hm Hfit. unfold frame_distance in Hfit. unfold inserted_frames.
  set (DX := x curr_frame - x last_frame).
  set (DY := y curr_frame - y last_frame).
  set (d := sqrt (DX * DX + DY * DY)).
  unfold Rgtb, Rltb. destruct (Rlt_dec m d) as [Hfar | Hnear].
  - set (N := ceil (d / m)).
    destruct (ceil_bounds (d / m)) as [HN _]. fold N in HN.
    assert (Hdm : d = d / m * m) by (field; lra).
    assert (H1 : 1 < d / m).
    { apply Rmult_lt_reg_r with m; lra. }
    assert (HNpos : (0 < N)%Z) by (apply lt_IZR; lra).
    fold DX DY d N in Hfit.
    rewrite int_of_double_IZR
      by (apply in_int_range_spec; unfold INT_MIN, INT_MAX in *; lia).
    assert (HINR : INR (Z.to_nat N) = IZR N).
    { rewrite INR_IZR_INZ, Z2Nat.id; [reflexivity | lia]. }
    assert (HdN : d <= m * IZR N).
    { rewrite Hdm at 1. rewrite (Rmult_comm m). apply Rmult_le_compat_r; lra. }
    assert (Hstep : sqrt (DX / (IZR N + 1) * (DX / (IZR N + 1)) +
                          DY / (IZR N + 1) * (DY / (IZR N + 1))) <= m).
    { apply substep_le; [exact Hm | lra | exact HdN]. }
    apply chain_app.
    destruct (affine_chain m (x last_frame) (y last_frame)
                (DX / (IZR N + 1)) (DY / (IZR N + 1))
                (fun j => normalize_angle
                   (theta last_frame + INR j *
                      (normalize_angle (theta curr_frame - theta last_frame)
                       / (IZR N + 1))))
                (Z.to_nat N) Hstep 0%nat last_frame)
      as [Hc [Hlx Hly]].
    + simpl INR. ring.
    + simpl INR. ring.
    + split; [exact Hc |].
      split; [| exact I].
      rewrite (frame_distance_diff _ curr_frame
                 (DX / (IZR N + 1)) (DY / (IZR N + 1))); [exact Hstep | |].
      * rewrite Hlx. simpl Nat.add. rewrite HINR. unfold DX. field. lra.
      * rewrite Hly. simpl Nat.add. rewrite HINR. unfold DY. field. lra.
  - simpl. split; [| exact I]. unfold frame_distance. fold DX DY d. lra.
Qed.

Lemma ipo_step_cons (m : R) (h : Pose2D) (t : list Pose2D) (c : Pose2D) :
  ipo_step m (h :: t) c = h :: (t ++ inserted_frames m (last t h) c ++ [c]).
Proof. unfold ipo_step. rewrite last_cons_default. reflexivity. Qed.

Lemma last_snoc (t ins : list Pose2D) (c h : Pose2D) :
  last (t ++ ins ++ [c]) h = c.
Proof. rewrite app_assoc. apply last_last. Qed.

(** The loop keeps the head of [ipoPath], ends on the last input frame and
    emits at least one frame per input frame. *)
Lemma ipo_fold_shape (m : R) (rest : list Pose2D) :
  forall (h : Pose2D) (t : list Pose2D),
  exists t' : list Pose2D,
    fold_left (ipo_step m) rest (h :: t) = h :: t' /\
    last t' h = last rest (last t h) /\
    (List.length t + List.length rest <= List.length t')%nat.
Proof.
  induction rest as [| c r IH]; intros h t.
  - exists t. simpl. split; [reflexivity | split; [reflexivity | lia]].
  - change (fold_left (ipo_step m) (c :: r) (h :: t))
      with (fold_left (ipo_step m) r (ipo_step m (h :: t) c)).
    rewrite ipo_step_cons.
    destruct (IH h (t ++ inserted_frames m (last t h) c ++ [c]))
      as [t' [Heq [Hlast Hlen]]].
    exists t'. split; [exact Heq |]. split.
    + rewrite Hlast, last_snoc, last_cons_default. reflexivity.
    + rewrite !length_app in Hlen. simpl in Hlen |- *. lia.
Qed.

(** The loop keeps [ipoPath] spaced, when every number of insertions
    fits. *)
Lemma ipo_fold_spaced (m : R) (rest : list Pose2D) :
  0 < m ->
  forall (h : Pose2D) (t : list Pose2D),
    chain m h t -> fit_chain m (last t h) rest ->
    spaced m (fold_left (ipo_step m) rest (h :: t)).
Proof.
  intros Hm. induction rest as [| c r IH]; intros h t Hc Hfit.
  - simpl. apply spaced_chain. exact Hc.
  - destruct Hfit as [Hfit Hrest].
    change (fold_left (ipo_step m) (c :: r) (h :: t))
      with (fold_left (ipo_step m) r (ipo_step m (h :: t) c)).
    rewrite ipo_step_cons. apply IH.
    + apply chain_app. split; [exact Hc |].
      apply inserted_frames_chain; [exact Hm | exact Hfit].
    + rewrite last_snoc. exact Hrest.
Qed.

(** Nothing is inserted between frames that are close enough. *)
Lemma inserted_frames_near (m : R) (a b : Pose2D) :
  frame_distance a b <= m -> inserted_frames m a b = [].
Proof.
  intros H. unfold inserted_frames, Rgtb.
  unfold frame_distance in H. rewrite Rltb_false; [reflexivity | exact H].
Qed.

Lemma ipo_fold_dense (m : R) (rest : list Pose2D) :
  forall (h : Pose2D) (t : list Pose2D),
    chain m (last t h) rest ->
    fold_left (ipo_step m) rest (h :: t) = (h :: t) ++ rest.
Proof.
  induction rest as [| c r IH]; intros h t Hc.
  - simpl. rewrite app_nil_r. reflexivity.
  - destruct Hc as [Hd Hr].
    change (fold_left (ipo_step m) (c :: r) (h :: t))
      with (fold_left (ipo_step m) r (ipo_step m (h :: t) c)).
    rewrite ipo_step_cons, (inserted_frames_near m _ c Hd).
    simpl app at 1. rewrite IH.
    + simpl. rewrite <- app_assoc. reflexivity.
    + rewrite last_last. exact Hr.
Qed.



(** On a path of two frames or more the densifier logs nothing and returns
    [true] with the result of its loop. *)
Lemma interpolatePathPose2D_long (self : OMPLPlannerBase) (path : list Pose2D) :
  (2 <= List.length path)%nat ->
  interpolatePathPose2D self path =
    ([], (true, ipo_loop (max_dist_between_pathframes_ self) path)).
Proof.
  intros Hlen. unfold interpolatePathPose2D.
  destruct (Nat.ltb_spec (List.length path) 2) as [Hlt | _]; [lia |].
  reflexivity.
Qed.

(** On a shorter path it reports the error and leaves [path] as it was. *)
Lemma interpolatePathPose2D_short (self : OMPLPlannerBase) (path : list Pose2D) :
  (List.length path < 2)%nat ->
  fst (snd (interpolatePathPose2D self path)) = false /\
  snd (snd (interpolatePathPose2D self path)) = path.
Proof.
  intros Hlen. unfold interpolatePathPose2D.
  destruct (Nat.ltb_spec (List.length path) 2) as [_ | Hge]; [| lia].
  split; reflexivity.
Qed.

(** [readParameters] always leaves a positive frame spacing. *)
Lemma readParameters_spacing_pos (env : Env) (self : OMPLPlannerBase) :
  0 < max_dist_between_pathframes_ (snd (readParameters env self)).
Proof.
  unfold readParameters, Rleb.
  destruct (Rle_dec _ 0) as [Hle | Hgt]; simpl; lra.
Qed.

Lemma configured_spacing (name : string) (fp : list Point) (o s : R)
    (cost : R -> R -> R) (d : R) (ok : bool) (sol : list SE2State) :
  0 < d ->
  max_dist_between_pathframes_
    (configured (sample_env name fp o s cost d ok sol)) = d.
Proof.
  intros Hd. unfold configured, readParameters, sample_env, Rleb. simpl param.
  destruct (Rle_dec d 0) as [Hle | Hgt]; [lra | reflexivity].
Qed.

(** The densifier on two frames. *)
Lemma ipo_loop_pair (m : R) (a b : Pose2D) :
  ipo_loop m [a; b] = a :: inserted_frames m a b ++ [b].
Proof. reflexivity. Qed.

Lemma straight_path_distance :
  frame_distance (mkPose2D 0 0 0) (mkPose2D 10 0 0) = 10.
Proof.
  unfold frame_distance. cbn [x y].
  replace ((10 - 0) * (10 - 0) + (0 - 0) * (0 - 0)) with (10 * 10) by ring.
  apply sqrt_square. lra.
Qed.

Lemma straight_path_fits : insertions_fit 3 straight_path.
Proof.
  apply insertions_fit_chain. split; [| exact I].
  rewrite straight_path_distance.
  rewrite (ceil_unique (10 / 3) 4) by lra. reflexivity.
Qed.

(** C4, as stated, fails: at a spacing of 1e-9 a gap of ten units calls for
    10^10 insertions, more than an [int] holds; the bound of the inner loop
    converts to [INT_MIN], nothing is inserted, and the two frames come back
    ten units apart. *)
Lemma densified_output_spaced_counterexample :
  0 < max_dist_between_pathframes_ (configured fine_env) /\
  (2 <= List.length straight_path)%nat /\
  snd (interpolatePathPose2D (configured fine_env) straight_path)
    = (true, straight_path) /\
  ~ spaced (max_dist_between_pathframes_ (configured fine_env))
           (snd (snd (interpolatePathPose2D (configured fine_env)
                        straight_path))).
Proof.
  assert (Hm : max_dist_between_pathframes_ (configured fine_env)
               = 1 / 1000000000)
    by (unfold fine_env; apply configured_spacing; lra).
  assert (Hout : snd (interpolatePathPose2D (configured fine_env) straight_path)
                 = (true, straight_path)).
  { rewrite interpolatePathPose2D_long by (simpl; lia).
    rewrite Hm. cbn [snd]. f_equal. unfold straight_path.
    rewrite ipo_loop_pair. unfold inserted_frames.
    change (sqrt _) with (frame_distance (mkPose2D 0 0 0) (mkPose2D 10 0 0)).
    rewrite straight_path_distance.
    unfold Rgtb. rewrite Rltb_true by lra.
    rewrite (ceil_unique (10 / (1 / 1000000000)) 10000000000) by lra.
    rewrite int_of_double_overflow by reflexivity.
    reflexivity. }
  rewrite Hm, Hout. cbn [snd].
  split; [lra |]. split; [simpl; lia |]. split; [reflexivity |].
  intros Hsp.
  pose proof (Hsp 0%nat (mkPose2D 0 0 0) (mkPose2D 10 0 0) eq_refl eq_refl)
    as Hgap.
  rewrite straight_path_distance in Hgap. lra.
Qed.

(** C4, amended: for a path of at least two frames and a positive spacing
    such that between every two neighbouring input frames fewer than
    [INT_MAX] frames are to be inserted, the densifier succeeds and every
    two neighbouring frames of its output are at most the spacing apart
    (planar distance, heading ignored). *)
Theorem densified_output_spaced (self : OMPLPlannerBase) (path : list Pose2D) :
  0 < max_dist_between_pathframes_ self ->
  (2 <= List.length path)%nat ->
  insertions_fit (max_dist_between_pathframes_ self) path ->
  fst (snd (interpolatePathPose2D self path)) = true /\
  spaced (max_dist_between_pathframes_ self)
         (snd (snd (interpolatePathPose2D self path))).
Proof.
  intros Hm Hlen Hfit. rewrite (interpolatePathPose2D_long self path Hlen).
  split; [reflexivity |]. simpl snd.
  destruct path as [| first rest]; [simpl in Hlen; lia |].
  unfold ipo_loop. apply ipo_fold_spaced; [exact Hm | exact I |].
  apply insertions_fit_chain. exact Hfit.
Qed.

Lemma densified_output_spaced_witness :
  fst (snd (interpolatePathPose2D (configured straight_env) straight_path))
    = true /\
  spaced (max_dist_between_pathframes_ (configured straight_env))
         (snd (snd (interpolatePathPose2D (configured straight_env)
                      straight_path))).
Proof.
  apply (densified_output_spaced (configured straight_env) straight_path).
  - unfold straight_env. rewrite configured_spacing; lra.
  - simpl. lia.
  - unfold straight_env. rewrite configured_spacing by lra.
    exact straight_path_fits.
Defined.



(** C6: a path of at least two frames whose neighbours are all within the
    spacing comes back from the densifier unchanged. *)
Theorem densify_dense_is_identity (self : OMPLPlannerBase) (path : list Pose2D) :
  (2 <= List.length path)%nat ->
  spaced (max_dist_between_pathframes_ self) path ->
  snd (interpolatePathPose2D self path) = (true, path).
Proof.
  intros Hlen Hsp. rewrite (interpolatePathPose2D_long self path Hlen).
  simpl snd. f_equal.
  destruct path as [| first rest]; [reflexivity |].
  unfold ipo_loop. apply ipo_fold_dense. simpl last.
  apply spaced_chain. exact Hsp.
Qed.

(** Distance between two frames on a line parallel to the x axis. *)
Lemma frame_distance_along_x (a b : Pose2D) :
  y a = y b -> x a <= x b -> frame_distance a b = x b - x a.
Proof.
  intros Hy Hx. unfold frame_distance. rewrite Hy.
  replace ((x b - x a) * (x b - x a) + (y b - y b) * (y b - y b))
    with ((x b - x a) * (x b - x a)) by ring.
  apply sqrt_square. lra.
Qed.

Lemma short_path_spaced : spaced 3 short_path.
Proof.
  apply spaced_chain. simpl. split; [| exact I].
  rewrite frame_distance_along_x; simpl; lra.
Qed.

Lemma densify_dense_is_identity_witness :
  snd (interpolatePathPose2D (configured straight_env) short_path)
  = (true, short_path).
Proof.
  apply (densify_dense_is_identity (configured straight_env) short_path).
  - simpl. lia.
  - unfold straight_env. rewrite configured_spacing by lra.
    exact short_path_spaced.
Defined.

(** X4: when between every two neighbouring input frames fewer than
    [INT_MAX] frames are to be inserted, densifying twice gives what
    densifying once gives. *)
Corollary densify_twice (self : OMPLPlannerBase) (path : list Pose2D) :
  0 < max_dist_between_pathframes_ self ->
  (2 <= List.length path)%nat ->
  insertions_fit (max_dist_between_pathframes_ self) path ->
  let out := snd (snd (interpolatePathPose2D self path)) in
  snd (interpolatePathPose2D self out) = (true, out).
Proof.
  intros Hm Hlen Hfit. rewrite (interpolatePathPose2D_long self path Hlen).
  simpl. destruct path as [| first rest]; [simpl in Hlen; lia |].
  unfold ipo_loop at 1 2.
  destruct (ipo_fold_shape (max_dist_between_pathframes_ self) rest first [])
    as [t' [Heq [_ Hlength]]].
  apply insertions_fit_chain in Hfit.
  pose proof (ipo_fold_spaced (max_dist_between_pathframes_ self) rest Hm
                first [] I Hfit) as Hsp.
  rewrite Heq in Hsp |- *.
  rewrite interpolatePathPose2D_long.
  - simpl snd. f_equal. unfold ipo_loop. apply ipo_fold_dense.
    simpl last. apply spaced_chain. exact Hsp.
  - simpl in Hlen, Hlength |- *. lia.
Qed.


Lemma zero_canonical : canonical 0.
Proof. unfold canonical. pose proof PI_RGT_0. lra. Qed.


(** The frames [makePlan] hands to the densifier are read from the
    planner's states by [convert], which normalises every heading. *)
Lemma converted_headings_canonical (sol : list SE2State) :
  headings_canonical (map convert_State_Pose2D sol).
Proof.
  apply Forall_forall. intros p Hp. apply in_map_iff in Hp.
  destruct Hp as [s [<- _]]. apply normalize_angle_canonical.
Qed.

(** ** The validity oracle and the orchestrator *)

Lemma readParameters_fields (env : Env) (self : OMPLPlannerBase) :
  let self' := snd (readParameters env self) in
  initialized_ self' = initialized_ self /\
  publish_diagnostics_ self' = publish_diagnostics_ self /\
  footprint_spec_ self' = footprint_spec_ self /\
  inscribed_radius_ self' = inscribed_radius_ self /\
  circumscribed_radius_ self' = circumscribed_radius_ self /\
  max_footprint_cost_ self' =
    int_val (param (param_max_footprint_cost env) int_256) /\
  interpolate_path_ self' = param (param_interpolate_path env) true.
Proof.
  unfold readParameters. destruct (Rleb _ 0); simpl; repeat split.
Qed.

Lemma footprintCost_no_footprint (env : Env) (self : OMPLPlannerBase)
    (p : Pose2D) :
  (List.length (footprint_spec_ self) < 3)%nat ->
  footprintCost env self p =
    ([CallFootprintCost p;
      RosLog Error "We have no footprint... do nothing"], -1).
Proof.
  intros H. unfold footprintCost.
  destruct (Nat.ltb_spec (List.length (footprint_spec_ self)) 3); [| lia].
  reflexivity.
Qed.

Lemma footprintCost_footprint (env : Env) (self : OMPLPlannerBase)
    (p : Pose2D) :
  (3 <= List.length (footprint_spec_ self))%nat ->
  footprintCost env self p =
    ([CallFootprintCost p],
     world_footprintCost env (x p) (y p) (theta p) (footprint_spec_ self)
       (inscribed_radius_ self) (circumscribed_radius_ self)).
Proof.
  intros H. unfold footprintCost.
  destruct (Nat.ltb_spec (List.length (footprint_spec_ self)) 3); [lia |].
  reflexivity.
Qed.

(** The endpoint test rejects exactly the costs whose truncation is negative
    or above the ceiling. *)
Lemma endpoint_in_collision_spec (self : OMPLPlannerBase) (c : R) :
  endpoint_in_collision self c = false <->
  (0 <= int_of_double c <= max_footprint_cost_ self)%Z.
Proof.
  unfold endpoint_in_collision, Rltb.
  destruct (Rlt_dec (IZR (int_of_double c)) 0) as [Hneg | Hpos]; simpl.
  - apply lt_IZR in Hneg. split; [discriminate | lia].
  - assert (0 <= int_of_double c)%Z by (apply le_IZR; lra).
    destruct (Z.gtb_spec (int_of_double c) (max_footprint_cost_ self));
      split; try reflexivity; try discriminate; lia.
Qed.

Lemma int_of_double_neg1 : int_of_double (-1) = (-1)%Z.
Proof. apply (int_of_double_IZR (-1)). reflexivity. Qed.

Lemma endpoint_in_collision_neg1 (self : OMPLPlannerBase) :
  endpoint_in_collision self (-1) = true.
Proof.
  destruct (endpoint_in_collision self (-1)) eqn:E; [reflexivity |].
  apply endpoint_in_collision_spec in E. rewrite int_of_double_neg1 in E. lia.
Qed.

(** ** [makePlan], branch by branch *)

Ltac run_cmd :=
  cbn [body bind when emit ret return_ call fst snd app negb].

Section Orchestrator.

Variable env : Env.

Local Open Scope string_scope.
Local Open Scope list_scope.

(** The decision tree of [makePlan] with the trace of each branch. *)
Lemma makePlan_unfold (self : OMPLPlannerBase) (start goal : PoseStamped)
    (plan0 : list PoseStamped) :
  makePlan env self start goal plan0 =
  if negb (initialized_ self) then
    ([RosLog Error
        "The planner has not been initialized, please call initialize() to use the planner"],
     (false, plan0))
  else
  let t0 := fst (readParameters env self) in
  let self1 := snd (readParameters env self) in
  if negb (String.eqb (frame_id (header goal)) (getGlobalFrameID env)) then
    (t0 ++ [RosLog Error
        "This planner as configured will only accept goals in the %s frame, but a goal was sent in the %s frame."],
     (false, []))
  else
  let bounds := map_bounds env in
  let setup_events :=
    [RosLog Info "Setting upper and lower bounds of map x-coordinate to (%f, %f).";
     RosLog Info "Setting upper and lower bounds of map y-coordinate to (%f, %f).";
     SetBounds bounds; SetStateValidityChecker;
     SetStateValidityCheckingResolution
       (relative_validity_check_resolution_ self1)] in
  let start2D := convert_Pose_Pose2D env (pose start) in
  let goal2D := convert_Pose_Pose2D env (pose goal) in
  let cg := footprintCost env self1 goal2D in
  if endpoint_in_collision self1 (snd cg) then
    (t0 ++ setup_events ++ fst cg ++
       [RosLog Error "Collision on target: Planning aborted! Change target position."],
     (false, []))
  else
  let cs := footprintCost env self1 start2D in
  if endpoint_in_collision self1 (snd cs) then
    (t0 ++ setup_events ++ fst cg ++ fst cs ++
       [RosLog Error "Collision on start: Planning aborted! Free start position."],
     (false, []))
  else
  let s := allocState env 0 in
  let g := allocState env 1 in
  if negb (satisfiesBounds bounds s) then
    (t0 ++ setup_events ++ fst cg ++ fst cs ++
       [RosLog Error "Start Pose lies outside the bounds of the map - Aborting Planer"],
     (false, []))
  else
  if negb (satisfiesBounds bounds g) then
    (t0 ++ setup_events ++ fst cg ++ fst cs ++
       [RosLog Error "Target Pose lies outside the bounds of the map - Aborting Planer"],
     (false, []))
  else
  let sp := setPlannerType env self1 in
  let self2 := fst (snd sp) in
  let simple_setup :=
    mkSimpleSetup bounds (fun st => snd (isStateValid2DGrid env self2 st))
      (relative_validity_check_resolution_ self2) s g (snd (snd sp)) in
  let solved := ompl_solve env simple_setup (solver_maxtime_ self2) in
  let diag (size : nat) :=
    mkDiagnostics
      (if solved then "Planning success" else "Planning Failed") "base"
      (planner_type_ self2) (if solved then "success" else "failed")
      (ompl_getLastPlanComputationTime env simple_setup) size 0 in
  let publish (e : Event) : Trace :=
    if publish_diagnostics_ self2 then [e] else [] in
  let search (rest : Trace) :=
    t0 ++ setup_events ++ fst cg ++ fst cs ++ [SetStartAndGoalStates s g] ++
    fst sp ++ [Solve (solver_maxtime_ self2)] ++
    fst (checker_calls env self2
           (ompl_solve_checks env simple_setup (solver_maxtime_ self2))) ++
    rest in
  if negb solved then
    (search ([RosLog Warn "No path found"] ++
             publish (PublishDiagnostics (diag 0%nat))),
     (false, []))
  else
  let ompl_path := ompl_getSolutionPath env simple_setup in
  let raw := map convert_State_Pose2D ompl_path in
  let extracted (rest : Trace) :=
    search ([SimplifySolution] ++
            fst (checker_calls env self2
                   (ompl_simplify_checks env simple_setup)) ++
            publish (PublishDiagnostics (diag (List.length ompl_path))) ++
            rest) in
  let ipo := interpolatePathPose2D self2 raw in
  if interpolate_path_ self2 && negb (fst (snd ipo)) then
    (extracted (fst ipo ++
       [RosLog Error
          "Something went wrong during interpolation. Probably plan empty. Aborting!"]),
     (false, []))
  else
  let dense := if interpolate_path_ self2 then snd (snd ipo) else raw in
  let plan := stamped_plan env (List.length ompl_path) dense in
  (extracted ((if interpolate_path_ self2 then fst ipo else []) ++
     [RosLog Info "Global planning finished: Path Found."] ++
     fst (publishPlan plan) ++
     publish (PublishStats
       (mkStats (pose start) (pose goal)
          (sqrt ((x goal2D - x start2D) * (x goal2D - x start2D) +
                 (y goal2D - y start2D) * (y goal2D - y start2D)))
          (ompl_path_length env ompl_path)
          (now env (1 + List.length ompl_path) - now env 0)))),
   (true, plan)).
Proof.
  unfold makePlan.
  destruct (initialized_ self); run_cmd; [| reflexivity].
  destruct (String.eqb (frame_id (header goal)) (getGlobalFrameID env));
    run_cmd; [| reflexivity].
  destruct (endpoint_in_collision _
              (snd (footprintCost env _ (convert_Pose_Pose2D env (pose goal)))));
    run_cmd; [reflexivity |].
  destruct (endpoint_in_collision _
              (snd (footprintCost env _ (convert_Pose_Pose2D env (pose start)))));
    run_cmd; [reflexivity |].
  destruct (satisfiesBounds (map_bounds env) (allocState env 0));
    run_cmd; [| reflexivity].
  destruct (satisfiesBounds (map_bounds env) (allocState env 1));
    run_cmd; [| reflexivity].
  set (sp := setPlannerType env (snd (readParameters env self))).
  destruct (ompl_solve env _ (solver_maxtime_ (fst (snd sp)))) eqn:Hsolved;
    run_cmd.
  2:{ destruct (publish_diagnostics_ (fst (snd sp))); reflexivity. }
  destruct (interpolate_path_ (fst (snd sp))) eqn:Hipo; run_cmd.
  - set (ipo := interpolatePathPose2D (fst (snd sp)) _).
    destruct (fst (snd ipo)) eqn:Hok;
      destruct (publish_diagnostics_ (fst (snd sp))); run_cmd;
      rewrite ?app_nil_r; reflexivity.
  - destruct (publish_diagnostics_ (fst (snd sp))); reflexivity.
Qed.

(** The traces of the calls [makePlan] makes. *)
Lemma readParameters_trace (self : OMPLPlannerBase) :
  fst (readParameters env self) = [] \/
  exists msg, fst (readParameters env self) = [RosLog Warn msg].
Proof.
  unfold readParameters. destruct (Rleb _ 0); simpl; eauto.
Qed.

Lemma footprintCost_trace (self : OMPLPlannerBase) (p : Pose2D) :
  fst (footprintCost env self p) = [CallFootprintCost p] \/
  exists msg,
    fst (footprintCost env self p) = [CallFootprintCost p; RosLog Error msg].
Proof.
  unfold footprintCost. destruct (_ <? 3)%nat; simpl; eauto.
Qed.

Lemma isStateValid2DGrid_trace (self : OMPLPlannerBase) (s : SE2State) :
  fst (isStateValid2DGrid env self s) =
  fst (footprintCost env self (convert_State_Pose2D s)).
Proof.
  unfold isStateValid2DGrid. cbn [body bind call ret fst snd].
  apply app_nil_r.
Qed.

(** The checker only queries costs and, without a footprint, logs errors. *)
Lemma checker_calls_trace (self : OMPLPlannerBase) (states : list SE2State) :
  Forall (fun e => (exists q, e = CallFootprintCost q) \/
                   (exists msg, e = RosLog Error msg))
         (fst (checker_calls env self states)).
Proof.
  unfold checker_calls. cbn [fst].
  induction states as [| s l IH]; [constructor |].
  cbn [flat_map]. apply Forall_app. split; [| exact IH].
  rewrite isStateValid2DGrid_trace.
  destruct (footprintCost_trace self (convert_State_Pose2D s))
    as [-> | [msg ->]].
  - constructor; [left; eauto | constructor].
  - constructor; [left; eauto |].
    constructor; [right; eauto | constructor].
Qed.

Lemma setPlannerType_trace (self : OMPLPlannerBase) :
  fst (setPlannerType env self) =
    match planner_of_name (planner_name env) with
    | Some k => [SetPlanner (Some k)]
    | None =>
        [RosLog Fatal
           "The planner named [%s] passed in global_planner_type is not supported";
         SetPlanner None]
    end.
Proof.
  unfold setPlannerType. simpl.
  destruct (planner_of_name _); reflexivity.
Qed.

Lemma interpolatePathPose2D_trace (self : OMPLPlannerBase) (path : list Pose2D) :
  fst (interpolatePathPose2D self path) = [] \/
  exists msg, fst (interpolatePathPose2D self path) = [RosLog Error msg].
Proof.
  unfold interpolatePathPose2D. destruct (_ <? 2)%nat; simpl; eauto.
Qed.

Lemma publishPlan_trace (path : list PoseStamped) :
  (exists msg, fst (publishPlan path) = [RosLog Info msg]) \/
  fst (publishPlan path) = [PublishPlan path].
Proof.
  unfold publishPlan. destruct path; simpl; eauto.
Qed.

End Orchestrator.

(** ** Properties of the runs of [makePlan] *)

Ltac split_cond :=
  match goal with
  | |- context [if ?c then _ else _] => destruct c eqn:?
  end.

Ltac split_top :=
  match goal with
  | |- context [fst (if ?c then _ else _)] => destruct c eqn:?
  | |- context [snd (if ?c then _ else _)] => destruct c eqn:?
  end.

Ltac concrete_traces env :=
  repeat match goal with
  | |- context [fst (readParameters env ?s)] =>
      destruct (readParameters_trace env s) as [-> | [? ->]]
  | |- context [fst (footprintCost env ?s ?p)] =>
      destruct (footprintCost_trace env s p) as [-> | [? ->]]
  | |- context [fst (setPlannerType env ?s)] =>
      rewrite (setPlannerType_trace env s); cbv zeta;
      destruct (planner_of_name _) eqn:?
  | |- context [fst (interpolatePathPose2D ?s ?p)] =>
      destruct (interpolatePathPose2D_trace s p) as [-> | [? ->]]
  | |- context [fst (publishPlan ?p)] =>
      destruct (publishPlan_trace p) as [[? ->] | ->]
  end.








Section Runs.

Variable env : Env.
Variable self : OMPLPlannerBase.
Variables start goal : PoseStamped.
Variable plan0 : list PoseStamped.

(** No fatal error is logged before the bounds are set, the validity checker
    is installed and a footprint cost has been asked for. *)
Lemma makePlan_fatal_late :
  not_before is_fatal is_set_bounds
    (fst (makePlan env self start goal plan0)) = true /\
  not_before is_fatal is_set_checker
    (fst (makePlan env self start goal plan0)) = true /\
  not_before is_fatal is_cost_call
    (fst (makePlan env self start goal plan0)) = true.
Proof.
  rewrite makePlan_unfold. cbv beta zeta.
  repeat (split_top;
          [solve [concrete_traces env; simpl; repeat split_cond; simpl; auto] |]).
  concrete_traces env; simpl; repeat split_cond; simpl; auto.
Qed.


(** An endpoint that fails the endpoint test ends the call with [false]
    before a planner is selected or run. *)
Lemma makePlan_endpoint_rejected :
  endpoint_rejected env self goal = true \/
  endpoint_rejected env self start = true ->
  fst (snd (makePlan env self start goal plan0)) = false /\
  planner_untouched (fst (makePlan env self start goal plan0)) = true.
Proof.
  unfold endpoint_rejected. intros Hrej.
  rewrite makePlan_unfold. cbv beta zeta.
  split_top. { simpl. auto. }
  do 3 (split_top; [concrete_traces env; simpl; auto |]).
  destruct Hrej; congruence.
Qed.

(** X18: a call that selects or runs a planner has passed both endpoint
    tests. *)
Lemma makePlan_planner_needs_endpoints :
  planner_untouched (fst (makePlan env self start goal plan0)) = false ->
  endpoint_rejected env self goal = false /\
  endpoint_rejected env self start = false.
Proof.
  intros Hrun.
  destruct (endpoint_rejected env self goal) eqn:Hg.
  - destruct makePlan_endpoint_rejected as [_ H]; [left; exact Hg | congruence].
  - destruct (endpoint_rejected env self start) eqn:Hs; [| split; reflexivity].
    destruct makePlan_endpoint_rejected as [_ H]; [right; exact Hs | congruence].
Qed.

End Runs.

(** ** The validity oracle at the threshold *)

Lemma isStateValid2DGrid_spec (env : Env) (self : OMPLPlannerBase)
    (s : SE2State) :
  let cost := snd (footprintCost env self (convert_State_Pose2D s)) in
  snd (isStateValid2DGrid env self s) = true <->
  0 <= cost < IZR (max_footprint_cost_ self).
Proof.
  unfold isStateValid2DGrid. cbn [body bind call ret fst snd].
  set (cost := snd (footprintCost env self (convert_State_Pose2D s))).
  unfold Rgeb. rewrite andb_true_iff, Rleb_spec, Rltb_spec. reflexivity.
Qed.

Lemma truncate_threshold (m : Z) (c : R) :
  (0 <= m)%Z -> IZR m <= c < IZR m + 1 -> truncate c = m.
Proof.
  intros Hm Hc. unfold truncate.
  assert (0 <= IZR m) by (apply IZR_le; exact Hm).
  destruct (Rle_dec 0 c); [| lra]. apply floor_unique. exact Hc.
Qed.

Lemma int_of_double_threshold (m : Z) (c : R) :
  (0 <= m)%Z -> in_int_range m = true ->
  IZR m <= c < IZR m + 1 -> int_of_double c = m.
Proof.
  intros Hm Hfit Hc. unfold int_of_double.
  rewrite (truncate_threshold m c Hm Hc), Hfit. reflexivity.
Qed.

(** C8: with fewer than three footprint vertices [footprintCost] answers
    the negative cost -1 for every pose, the validity checker calls every
    state invalid, and every call of [makePlan] returns [false] without a
    planner being selected or run. *)
Theorem no_footprint_rejects (env : Env) (self : OMPLPlannerBase) :
  (List.length (footprint_spec_ self) < 3)%nat ->
  (forall p : Pose2D, snd (footprintCost env self p) = -1) /\
  (forall s : SE2State, snd (isStateValid2DGrid env self s) = false) /\
  (forall (start goal : PoseStamped) (plan : list PoseStamped),
      fst (snd (makePlan env self start goal plan)) = false /\
      planner_untouched (fst (makePlan env self start goal plan)) = true).
Proof.
  intros Hfp. split; [| split].
  - intros p. rewrite footprintCost_no_footprint by exact Hfp. reflexivity.
  - intros s.
    destruct (snd (isStateValid2DGrid env self s)) eqn:E; [| reflexivity].
    apply isStateValid2DGrid_spec in E.
    rewrite footprintCost_no_footprint in E by exact Hfp. simpl in E. lra.
  - intros start goal plan. apply makePlan_endpoint_rejected. left.
    unfold endpoint_rejected.
    destruct (readParameters_fields env self) as [_ [_ [Hspec _]]].
    rewrite footprintCost_no_footprint by (rewrite Hspec; exact Hfp).
    apply endpoint_in_collision_neg1.
Qed.

Lemma initialize_fields (env : Env) :
  let self := snd (initialize env OMPLPlannerBase_new) in
  initialized_ self = true /\
  footprint_spec_ self = getRobotFootprint env /\
  inscribed_radius_ self = getInscribedRadius env /\
  circumscribed_radius_ self = getCircumscribedRadius env /\
  publish_diagnostics_ self = param (param_publish_diagnostics env) true.
Proof. repeat split. Qed.

Lemma configured_fields (env : Env) :
  initialized_ (configured env) = true /\
  footprint_spec_ (configured env) = getRobotFootprint env /\
  inscribed_radius_ (configured env) = getInscribedRadius env /\
  circumscribed_radius_ (configured env) = getCircumscribedRadius env /\
  max_footprint_cost_ (configured env) =
    int_val (param (param_max_footprint_cost env) int_256).
Proof.
  unfold configured.
  destruct (readParameters_fields env (snd (initialize env OMPLPlannerBase_new)))
    as [H1 [_ [H3 [H4 [H5 [H6 _]]]]]].
  rewrite H1, H3, H4, H5, H6. repeat split.
Qed.

Lemma no_footprint_rejects_witness :
  (forall p : Pose2D,
      snd (footprintCost no_footprint_env (configured no_footprint_env) p) = -1) /\
  (forall s : SE2State,
      snd (isStateValid2DGrid no_footprint_env (configured no_footprint_env) s)
      = false) /\
  (forall (start goal : PoseStamped) (plan : list PoseStamped),
      fst (snd (makePlan no_footprint_env (configured no_footprint_env)
                  start goal plan)) = false /\
      planner_untouched
        (fst (makePlan no_footprint_env (configured no_footprint_env)
                start goal plan)) = true).
Proof.
  apply (no_footprint_rejects no_footprint_env (configured no_footprint_env)).
  destruct (configured_fields no_footprint_env) as [_ [Hfp _]].
  rewrite Hfp. simpl. lia.
Defined.

(** The validity checker rejects a cost in [[ceiling, ceiling + 1)]. *)
Lemma endpoint_test_bounds (env : Env) (self : OMPLPlannerBase) (s : SE2State) :
  (0 <= max_footprint_cost_ self)%Z ->
  IZR (max_footprint_cost_ self)
    <= snd (footprintCost env self (convert_State_Pose2D s))
    < IZR (max_footprint_cost_ self) + 1 ->
  snd (isStateValid2DGrid env self s) = false.
Proof.
  intros Hceil Hcost.
  destruct (snd (isStateValid2DGrid env self s)) eqn:E; [| reflexivity].
  apply isStateValid2DGrid_spec in E. lra.
Qed.

(** C10: the endpoint test of [makePlan] accepts a cost whose truncation
    lies between zero and the ceiling, the validity checker accepts a cost
    that is itself at least zero and strictly below the ceiling; so a state
    whose cost lies in [[ceiling, ceiling + 1)] passes the endpoint test and
    is invalid for the checker. *)
Theorem endpoint_test_weaker_than_checker (env : Env) (self : OMPLPlannerBase)
    (s : SE2State) :
  let cost := snd (footprintCost env self (convert_State_Pose2D s)) in
  let ceiling := max_footprint_cost_ self in
  (0 <= ceiling)%Z ->
  IZR ceiling <= cost < IZR ceiling + 1 ->
  (forall c : R, endpoint_in_collision self c = false <->
                 (0 <= int_of_double c <= ceiling)%Z) /\
  (snd (isStateValid2DGrid env self s) = true <-> 0 <= cost < IZR ceiling) /\
  endpoint_in_collision self cost = false /\
  snd (isStateValid2DGrid env self s) = false.
Proof.
  intros cost ceiling Hceil Hcost.
  split; [intros c; apply endpoint_in_collision_spec |].
  split; [apply isStateValid2DGrid_spec |].
  split.
  - apply endpoint_in_collision_spec.
    rewrite (int_of_double_threshold ceiling cost Hceil
               (max_footprint_cost_range self) Hcost).
    fold ceiling. lia.
  - destruct (snd (isStateValid2DGrid env self s)) eqn:E; [| reflexivity].
    apply isStateValid2DGrid_spec in E. fold cost ceiling in E. lra.
Qed.

(** Facts about the sample environments. *)
Lemma sample_ceiling (name : string) (fp : list Point) (o s : R)
    (cost : R -> R -> R) (d : R) (ok : bool) (sol : list SE2State) :
  max_footprint_cost_ (configured (sample_env name fp o s cost d ok sol))
  = 256%Z.
Proof.
  destruct (configured_fields (sample_env name fp o s cost d ok sol))
    as [_ [_ [_ [_ H]]]].
  exact H.
Qed.

Lemma sample_cost (name : string) (fp : list Point) (o s : R)
    (cost : R -> R -> R) (d : R) (ok : bool) (sol : list SE2State)
    (p : Pose2D) :
  (3 <= List.length fp)%nat ->
  let env := sample_env name fp o s cost d ok sol in
  snd (footprintCost env (configured env) p) = cost (x p) (y p).
Proof.
  intros Hfp env.
  destruct (configured_fields env) as [_ [Hspec _]].
  rewrite footprintCost_footprint by (rewrite Hspec; exact Hfp).
  reflexivity.
Qed.

Lemma costly_right_inside (c px py : R) : 5 <= px -> costly_right c px py = c.
Proof. intros H. unfold costly_right. rewrite Rleb_true by exact H. reflexivity. Qed.

Lemma costly_right_outside (c px py : R) : px < 5 -> costly_right c px py = 0.
Proof. intros H. unfold costly_right. rewrite Rleb_false by exact H. reflexivity. Qed.

Lemma endpoint_test_weaker_than_checker_witness :
  let env := threshold_env (256 + 1 / 2) in
  let s := mkSE2State 10 0 0 in
  endpoint_in_collision (configured env)
    (snd (footprintCost env (configured env) (convert_State_Pose2D s))) = false /\
  snd (isStateValid2DGrid env (configured env) s) = false.
Proof.
  intros env s.
  assert (Hcost : snd (footprintCost env (configured env)
                         (convert_State_Pose2D s)) = 256 + 1 / 2).
  { unfold env, threshold_env. rewrite sample_cost by (simpl; lia).
    apply costly_right_inside. simpl. lra. }
  assert (Hceil : max_footprint_cost_ (configured env) = 256%Z)
    by apply sample_ceiling.
  apply (endpoint_test_weaker_than_checker env (configured env) s).
  - rewrite Hceil. lia.
  - rewrite Hcost, Hceil. lra.
Defined.

(** ** The bounds of the state space *)

Lemma map_bounds_eq (env : Env) :
  map_bounds env =
  mkBounds [getSizeInMetersX env - getOriginX env - getSizeInMetersX env;
            getSizeInMetersY env - getOriginY env - getSizeInMetersY env]
           [getSizeInMetersX env - getOriginX env;
            getSizeInMetersY env - getOriginY env].
Proof. reflexivity. Qed.

(** In real arithmetic the bounds are [[-origin, size - origin]] on each
    axis. *)
Lemma map_bounds_real (env : Env) :
  map_bounds env =
  mkBounds [- getOriginX env; - getOriginY env]
           [getSizeInMetersX env - getOriginX env;
            getSizeInMetersY env - getOriginY env].
Proof. rewrite map_bounds_eq. f_equal. f_equal; [| f_equal]; ring. Qed.

(** Every run that gets past the frame check installs [map_bounds]. *)
Lemma makePlan_sets_bounds (env : Env) (self : OMPLPlannerBase)
    (start goal : PoseStamped) (plan0 : list PoseStamped) :
  initialized_ self = true ->
  String.eqb (frame_id (header goal)) (getGlobalFrameID env) = true ->
  In (SetBounds (map_bounds env)) (fst (makePlan env self start goal plan0)).
Proof.
  intros Hinit Hframe. rewrite makePlan_unfold. cbv beta zeta.
  rewrite Hinit, Hframe. cbn [negb].
  repeat split_top; cbn [fst]; apply in_or_app; right; simpl; auto 10.
Qed.

(** C1 fails on the code: for the 10 by 10 map whose origin is (-5, -5),
    which covers [[-5, 5]] on both axes, [makePlan] sets the position bounds
    to [[5, 15]] on both axes. *)
Theorem map_bounds_centred_map :
  getOriginX centred_env = -5 /\ getOriginY centred_env = -5 /\
  getSizeInMetersX centred_env = 10 /\ getSizeInMetersY centred_env = 10 /\
  map_bounds centred_env = mkBounds [5; 5] [15; 15] /\
  In (SetBounds (mkBounds [5; 5] [15; 15]))
     (fst (makePlan centred_env (configured centred_env)
             (pose_at (-1) (-1) "map") (pose_at 1 1 "map") [])).
Proof.
  assert (Hb : map_bounds centred_env = mkBounds [5; 5] [15; 15]).
  { rewrite map_bounds_real. simpl. f_equal; f_equal; [| f_equal | | f_equal]; lra. }
  repeat split; try reflexivity; try exact Hb.
  rewrite <- Hb. apply makePlan_sets_bounds.
  - apply configured_fields.
  - reflexivity.
Qed.

(** ** Runs that reach the planner *)

Lemma setPlannerType_fields (env : Env) (self : OMPLPlannerBase) :
  let self' := fst (snd (setPlannerType env self)) in
  snd (snd (setPlannerType env self)) = planner_of_name (planner_name env) /\
  max_dist_between_pathframes_ self' = max_dist_between_pathframes_ self /\
  interpolate_path_ self' = interpolate_path_ self /\
  solver_maxtime_ self' = solver_maxtime_ self /\
  publish_diagnostics_ self' = publish_diagnostics_ self.
Proof.
  unfold setPlannerType. simpl.
  destruct (planner_of_name _); simpl; repeat split.
Qed.

Lemma not_before_false (q p : Event -> bool) (a b : Trace) :
  existsb p a = false -> existsb q a = true -> not_before q p (a ++ b) = false.
Proof.
  induction a as [| e a IH]; intros Hp Hq.
  - discriminate.
  - simpl in Hp, Hq |- *. apply orb_false_iff in Hp. destruct Hp as [Hpe Hpa].
    rewrite Hpe. destruct (q e); [reflexivity |]. apply IH; assumption.
Qed.

Section Accepted.

Variable env : Env.
Variable self : OMPLPlannerBase.
Variables start goal : PoseStamped.
Variable plan0 : list PoseStamped.

Hypothesis Haccepted : accepted env self start goal.

(** The trace of an accepted request up to the call of [solve]. *)
Lemma accepted_trace :
  exists (setup post : Trace),
    fst (makePlan env self start goal plan0) =
      setup ++ fst (setPlannerType env (snd (readParameters env self)))
            ++ Solve (solver_maxtime_ (snd (readParameters env self)))
               :: post /\
    existsb is_fatal setup = false /\
    existsb is_set_bounds setup = true /\
    existsb is_set_checker setup = true /\
    existsb is_cost_call setup = true.
Proof.
  destruct Haccepted as [Hinit [Hframe [Hgoal [Hstart [Hs Hg]]]]].
  unfold endpoint_rejected in Hgoal, Hstart.
  rewrite makePlan_unfold. cbv beta zeta.
  rewrite Hinit, Hframe, Hgoal, Hstart, Hs, Hg. cbn [negb].
  set (self1 := snd (readParameters env self)).
  destruct (setPlannerType_fields env self1) as [_ [_ [_ [Htime _]]]].
  rewrite Htime.
  exists (fst (readParameters env self) ++
          [RosLog Info
             "Setting upper and lower bounds of map x-coordinate to (%f, %f).";
           RosLog Info
             "Setting upper and lower bounds of map y-coordinate to (%f, %f).";
           SetBounds (map_bounds env); SetStateValidityChecker;
           SetStateValidityCheckingResolution
             (relative_validity_check_resolution_ self1)]
          ++ fst (footprintCost env self1 (convert_Pose_Pose2D env (pose goal)))
          ++ fst (footprintCost env self1 (convert_Pose_Pose2D env (pose start)))
          ++ [SetStartAndGoalStates (allocState env 0) (allocState env 1)]).
  repeat split_top; cbn [fst]; eexists;
    (split; [repeat (rewrite <- app_assoc; cbn [app]); reflexivity |]);
    destruct (readParameters_trace env self) as [-> | [? ->]];
    destruct (footprintCost_trace env self1
                (convert_Pose_Pose2D env (pose goal))) as [-> | [? ->]];
    destruct (footprintCost_trace env self1
                (convert_Pose_Pose2D env (pose start))) as [-> | [? ->]];
    repeat split.
Qed.

(** An accepted request has a planner handle set and [solve] called. *)
Lemma accepted_selects_planner :
  In (SetPlanner (planner_of_name (planner_name env)))
     (fst (makePlan env self start goal plan0)) /\
  In (Solve (solver_maxtime_ (snd (readParameters env self))))
     (fst (makePlan env self start goal plan0)).
Proof.
  destruct accepted_trace as [setup [post [-> _]]].
  rewrite setPlannerType_trace. cbv zeta. fold (planner_name env). split.
  - apply in_or_app. right. apply in_or_app. left.
    destruct (planner_of_name (planner_name env)); simpl; auto.
  - apply in_or_app. right. apply in_or_app. right. left. reflexivity.
Qed.

(** With an unsupported planner name the fatal error of an accepted request
    comes after the bounds, the validity checker and the cost queries, and
    the unset handle is passed on to [setPlanner]. *)
Lemma accepted_unsupported :
  planner_of_name (planner_name env) = None ->
  existsb is_fatal (fst (makePlan env self start goal plan0)) = true /\
  not_before is_set_bounds is_fatal
    (fst (makePlan env self start goal plan0)) = false /\
  not_before is_set_checker is_fatal
    (fst (makePlan env self start goal plan0)) = false /\
  not_before is_cost_call is_fatal
    (fst (makePlan env self start goal plan0)) = false /\
  In (SetPlanner None) (fst (makePlan env self start goal plan0)).
Proof.
  intros Hname.
  destruct accepted_selects_planner as [Hsel _]. rewrite Hname in Hsel.
  repeat split; try exact Hsel;
    destruct accepted_trace as [setup [post [-> [Hf [Hb [Hc Hq]]]]]];
    rewrite setPlannerType_trace; cbv zeta; fold (planner_name env);
    rewrite Hname.
  - rewrite existsb_app, Hf. reflexivity.
  - apply not_before_false; assumption.
  - apply not_before_false; assumption.
  - apply not_before_false; assumption.
Qed.

End Accepted.

Lemma planner_of_name_unsupported (name : string) :
  ~ In name supported_names -> planner_of_name name = None.
Proof.
  intros Hout. unfold planner_of_name.
  repeat match goal with
         | |- context [String.eqb name ?s] =>
             destruct (String.eqb_spec name s) as [Heq | _];
             [exfalso; apply Hout; rewrite Heq; simpl; auto 10 |]
         end.
  reflexivity.
Qed.

Lemma planner_of_name_supported (name : string) :
  In name supported_names -> planner_of_name name <> None.
Proof.
  intros Hin. simpl in Hin.
  repeat (destruct Hin as [<- | Hin]; [discriminate |]).
  contradiction.
Qed.

(** A run that logs a fatal error has passed every check made before the
    planner is chosen. *)
Lemma fatal_accepted (env : Env) (self : OMPLPlannerBase)
    (start goal : PoseStamped) (plan0 : list PoseStamped) :
  existsb is_fatal (fst (makePlan env self start goal plan0)) = true ->
  accepted env self start goal.
Proof.
  rewrite makePlan_unfold. unfold accepted, endpoint_rejected. cbv beta zeta.
  destruct (initialized_ self); cbn [negb]; [| simpl; discriminate].
  destruct (String.eqb _ _); cbn [negb];
    [| concrete_traces env; simpl; discriminate].
  destruct (endpoint_in_collision _ _);
    [concrete_traces env; simpl; discriminate |].
  destruct (endpoint_in_collision _ _);
    [concrete_traces env; simpl; discriminate |].
  destruct (satisfiesBounds _ (allocState env 0)); cbn [negb];
    [| concrete_traces env; simpl; discriminate].
  destruct (satisfiesBounds _ (allocState env 1)); cbn [negb];
    [| concrete_traces env; simpl; discriminate].
  intros _. repeat split.
Qed.

(** The requests between two points of zero-to-256 cost in a sample
    environment whose map has its origin at zero are accepted. *)
Lemma sample_request_accepted (name : string) (fp : list Point)
    (cost : R -> R -> R) (d : R) (ok : bool) (sol : list SE2State)
    (sx sy gx gy : R) :
  let env := sample_env name fp 0 20 cost d ok sol in
  (3 <= List.length fp)%nat ->
  (0 <= int_of_double (cost gx gy) <= 256)%Z ->
  (0 <= int_of_double (cost sx sy) <= 256)%Z ->
  accepted env (configured env) (pose_at sx sy "map") (pose_at gx gy "map").
Proof.
  intros env Hfp Hgoal Hstart. unfold accepted, endpoint_rejected.
  destruct (configured_fields env) as [Hinit [Hspec [Hin [Hout _]]]].
  destruct (readParameters_fields env (configured env))
    as [_ [_ [Hspec1 [Hin1 [Hout1 [Hmax1 _]]]]]].
  assert (Hcost : forall p : Pose2D,
             snd (footprintCost env (snd (readParameters env (configured env))) p)
             = cost (x p) (y p)).
  { intros p. rewrite footprintCost_footprint; [reflexivity |].
    rewrite Hspec1, Hspec. exact Hfp. }
  assert (Hbounds : forall n : nat,
             satisfiesBounds (map_bounds env) (allocState env n) = true).
  { intros n. rewrite map_bounds_real. unfold satisfiesBounds. simpl.
    pose proof PI_RGT_0.
    rewrite !Rleb_true by lra. reflexivity. }
  split; [exact Hinit |]. split; [reflexivity |].
  split; [| split; [| split; apply Hbounds]].
  - apply endpoint_in_collision_spec. rewrite Hcost, Hmax1. exact Hgoal.
  - apply endpoint_in_collision_spec. rewrite Hcost, Hmax1. exact Hstart.
Qed.

Lemma readParameters_solver_maxtime (env : Env) (self : OMPLPlannerBase) :
  solver_maxtime_ (snd (readParameters env self))
  = param (param_solver_maxtime env) 1.
Proof. unfold readParameters. destruct (Rleb _ 0); reflexivity. Qed.

Lemma int_of_double_0 : int_of_double 0 = 0%Z.
Proof. apply (int_of_double_IZR 0). reflexivity. Qed.

(** C3, as stated, fails: with the planner name "Bogus" a request between
    two free poses has its bounds set, its validity checker installed and
    both endpoint costs queried before the fatal error is logged, and the
    unset planner handle is then given to [setPlanner] and [solve] is
    called. *)
Lemma unsupported_planner_counterexample :
  let run := makePlan bogus_env (configured bogus_env)
               (pose_at 1 1 "map") (pose_at 5 5 "map") [] in
  ~ In "Bogus"%string supported_names /\
  planner_name bogus_env = "Bogus"%string /\
  existsb is_fatal (fst run) = true /\
  not_before is_set_bounds is_fatal (fst run) = false /\
  not_before is_set_checker is_fatal (fst run) = false /\
  not_before is_cost_call is_fatal (fst run) = false /\
  In (SetPlanner None) (fst run) /\
  In (Solve 1) (fst run).
Proof.
  assert (Hacc : accepted bogus_env (configured bogus_env)
                   (pose_at 1 1 "map") (pose_at 5 5 "map")).
  { apply sample_request_accepted.
    - simpl. lia.
    - unfold free_space. rewrite int_of_double_0. lia.
    - unfold free_space. rewrite int_of_double_0. lia. }
  cbv zeta. split; [simpl; intuition discriminate |].
  split; [reflexivity |].
  destruct (accepted_unsupported bogus_env (configured bogus_env)
              (pose_at 1 1 "map") (pose_at 5 5 "map") [] Hacc eq_refl)
    as [H1 [H2 [H3 [H4 H5]]]].
  repeat split; try assumption.
  destruct (accepted_selects_planner bogus_env (configured bogus_env)
              (pose_at 1 1 "map") (pose_at 5 5 "map") [] Hacc) as [_ Hsolve].
  rewrite readParameters_solver_maxtime in Hsolve. exact Hsolve.
Qed.

(** C3, amended: for a planner name outside the nine supported ones,
    [setPlannerType] logs a fatal error; a run of [makePlan] logs it exactly
    when the request passes the initialisation, frame, endpoint and
    bounds-membership checks, and never before the bounds are set, the
    validity checker is installed and a footprint cost is queried. *)
Theorem unsupported_planner_fatal (env : Env) (self : OMPLPlannerBase) :
  ~ In (planner_name env) supported_names ->
  existsb is_fatal (fst (setPlannerType env self)) = true /\
  forall (start goal : PoseStamped) (plan : list PoseStamped),
    let t := fst (makePlan env self start goal plan) in
    (existsb is_fatal t = true <-> accepted env self start goal) /\
    not_before is_fatal is_set_bounds t = true /\
    not_before is_fatal is_set_checker t = true /\
    not_before is_fatal is_cost_call t = true.
Proof.
  intros Hname. apply planner_of_name_unsupported in Hname. split.
  - rewrite setPlannerType_trace. cbv zeta. rewrite Hname. reflexivity.
  - intros start goal plan t. split.
    + split; [apply fatal_accepted |].
      intros Hacc.
      apply (accepted_unsupported env self start goal plan Hacc Hname).
    + apply makePlan_fatal_late.
Qed.

Lemma unsupported_planner_fatal_witness :
  existsb is_fatal (fst (setPlannerType bogus_env (configured bogus_env)))
    = true /\
  forall (start goal : PoseStamped) (plan : list PoseStamped),
    let t := fst (makePlan bogus_env (configured bogus_env) start goal plan) in
    (existsb is_fatal t = true <->
     accepted bogus_env (configured bogus_env) start goal) /\
    not_before is_fatal is_set_bounds t = true /\
    not_before is_fatal is_set_checker t = true /\
    not_before is_fatal is_cost_call t = true.
Proof.
  apply (unsupported_planner_fatal bogus_env (configured bogus_env)).
  simpl. intuition discriminate.
Defined.

(** ** The returned plan *)

Lemma readParameters_spacing (env : Env) (self : OMPLPlannerBase) (d : R) :
  param_max_dist_between_pathframes env = Some d -> 0 < d ->
  max_dist_between_pathframes_ (snd (readParameters env self)) = d.
Proof.
  intros Hparam Hd. unfold readParameters, Rleb. rewrite Hparam. simpl param.
  destruct (Rle_dec d 0); [lra | reflexivity].
Qed.

Lemma stamped_plan_length (env : Env) (n : nat) (path : list Pose2D) :
  List.length (stamped_plan env n path) = n.
Proof. unfold stamped_plan. rewrite length_map, length_seq. reflexivity. Qed.

(** An accepted request that the planner solves with a raw path of at least
    two states, interpolation switched on: [makePlan] returns [true] and the
    plan holds the first [length raw] frames of the densified path. *)
Lemma accepted_solved_plan (env : Env) (self : OMPLPlannerBase)
    (start goal : PoseStamped) (plan0 : list PoseStamped)
    (sol : list SE2State) :
  accepted env self start goal ->
  (forall (ss : SimpleSetup) (t : R), ompl_solve env ss t = true) ->
  (forall ss : SimpleSetup, ompl_getSolutionPath env ss = sol) ->
  param (param_interpolate_path env) true = true ->
  (2 <= List.length sol)%nat ->
  snd (makePlan env self start goal plan0) =
    (true,
     stamped_plan env (List.length sol)
       (ipo_loop (max_dist_between_pathframes_ (snd (readParameters env self)))
                 (map convert_State_Pose2D sol))).
Proof.
  intros [Hinit [Hframe [Hgoal [Hstart [Hs Hg]]]]] Hsolve Hpath Hipo Hlen.
  unfold endpoint_rejected in Hgoal, Hstart.
  rewrite makePlan_unfold. cbv beta zeta.
  rewrite Hinit, Hframe, Hgoal, Hstart, Hs, Hg, Hsolve, Hpath. cbn [negb].
  destruct (setPlannerType_fields env (snd (readParameters env self)))
    as [_ [Hdist [Hinterp _]]].
  destruct (readParameters_fields env self) as [_ [_ [_ [_ [_ [_ Hinterp1]]]]]].
  rewrite Hinterp, Hinterp1, Hipo.
  rewrite interpolatePathPose2D_long by (rewrite length_map; exact Hlen).
  cbn [fst snd negb andb]. rewrite Hdist. reflexivity.
Qed.

(** Such a plan has as many poses as the raw path, whatever the densifier
    inserted. *)
Lemma accepted_solved_plan_length (env : Env) (self : OMPLPlannerBase)
    (start goal : PoseStamped) (plan0 : list PoseStamped)
    (sol : list SE2State) :
  accepted env self start goal ->
  (forall (ss : SimpleSetup) (t : R), ompl_solve env ss t = true) ->
  (forall ss : SimpleSetup, ompl_getSolutionPath env ss = sol) ->
  param (param_interpolate_path env) true = true ->
  (2 <= List.length sol)%nat ->
  List.length (snd (snd (makePlan env self start goal plan0)))
  = List.length sol.
Proof.
  intros Hacc Hsolve Hpath Hipo Hlen.
  rewrite (accepted_solved_plan env self start goal plan0 sol); try assumption.
  apply stamped_plan_length.
Qed.

(** ** The endpoint test at the ceiling *)

Lemma threshold_goal_passes (c : R) :
  256 <= c < 257 ->
  snd (footprintCost (threshold_env c) (configured (threshold_env c))
         (convert_State_Pose2D threshold_goal)) = c /\
  snd (isStateValid2DGrid (threshold_env c) (configured (threshold_env c))
         threshold_goal) = false /\
  In (SetPlanner (Some LBKPIECE1)) (fst (threshold_run c)) /\
  In (Solve 1) (fst (threshold_run c)) /\
  fst (snd (threshold_run c)) = true.
Proof.
  intros Hc.
  assert (Hcost : snd (footprintCost (threshold_env c)
                         (configured (threshold_env c))
                         (convert_State_Pose2D threshold_goal)) = c).
  { unfold threshold_env. rewrite sample_cost by (simpl; lia).
    apply costly_right_inside. simpl. lra. }
  split; [exact Hcost |]. split.
  - apply (endpoint_test_bounds (threshold_env c)).
    + unfold threshold_env. rewrite sample_ceiling. lia.
    + rewrite Hcost. unfold threshold_env. rewrite sample_ceiling. lra.
  - assert (Hacc : accepted (threshold_env c) (configured (threshold_env c))
                     (pose_at 1 1 "map") (pose_at 10 1 "map")).
    { apply sample_request_accepted.
      - simpl. lia.
      - rewrite costly_right_inside by lra.
        rewrite (int_of_double_threshold 256 c); [lia | lia | reflexivity | lra].
      - rewrite costly_right_outside by lra. rewrite int_of_double_0. lia. }
    destruct (accepted_selects_planner _ _ _ _ [] Hacc) as [Hsel Hsolve].
    rewrite readParameters_solver_maxtime in Hsolve.
    split; [exact Hsel |]. split; [exact Hsolve |].
    unfold threshold_run.
    rewrite (accepted_solved_plan _ _ _ _ [] straight_solution Hacc);
      [reflexivity | reflexivity | reflexivity | reflexivity | simpl; lia].
Qed.

(** C7 fails on the code at the ceiling: a goal whose footprint cost is
    256.5, or exactly 256, with the ceiling at 256 is invalid for the
    validity checker, yet the run goes on to select a planner, calls
    [solve] and returns [true]. *)
Theorem endpoint_check_passes_invalid_goal :
  max_footprint_cost_ (configured (threshold_env (256 + 1 / 2))) = 256%Z /\
  (snd (footprintCost (threshold_env (256 + 1 / 2))
          (configured (threshold_env (256 + 1 / 2)))
          (convert_State_Pose2D threshold_goal)) = 256 + 1 / 2 /\
   snd (isStateValid2DGrid (threshold_env (256 + 1 / 2))
          (configured (threshold_env (256 + 1 / 2))) threshold_goal) = false /\
   In (SetPlanner (Some LBKPIECE1)) (fst (threshold_run (256 + 1 / 2))) /\
   In (Solve 1) (fst (threshold_run (256 + 1 / 2))) /\
   fst (snd (threshold_run (256 + 1 / 2))) = true) /\
  (snd (footprintCost (threshold_env 256) (configured (threshold_env 256))
          (convert_State_Pose2D threshold_goal)) = 256 /\
   snd (isStateValid2DGrid (threshold_env 256) (configured (threshold_env 256))
          threshold_goal) = false /\
   In (SetPlanner (Some LBKPIECE1)) (fst (threshold_run 256)) /\
   In (Solve 1) (fst (threshold_run 256)) /\
   fst (snd (threshold_run 256)) = true).
Proof.
  split; [apply sample_ceiling |].
  split; apply threshold_goal_passes; lra.
Qed.

(** The densifier on [straight_path] at spacing 3. *)
Lemma ipo_loop_straight : ipo_loop 3 straight_path = straight_dense.
Proof.
  unfold ipo_loop, straight_path. cbn [fold_left].
  unfold ipo_step. cbn [last app]. unfold inserted_frames. cbn [x y theta].
  assert (Hd : sqrt ((10 - 0) * (10 - 0) + (0 - 0) * (0 - 0)) = 10).
  { replace ((10 - 0) * (10 - 0) + (0 - 0) * (0 - 0)) with (10 * 10) by ring.
    apply sqrt_square. lra. }
  rewrite Hd. unfold Rgtb. rewrite Rltb_true by lra.
  assert (Hn : ceil (10 / 3) = 4%Z) by (apply ceil_unique; lra).
  rewrite Hn, int_of_double_IZR by reflexivity.
  change (Z.to_nat 4) with 4%nat. cbn [seq map app].
  assert (H0 : normalize_angle (0 - 0) = 0).
  { replace (0 - 0) with 0 by ring. apply normalize_angle_id, zero_canonical. }
  rewrite H0.
  assert (Hth : forall j : nat,
             normalize_angle (0 + INR j * (0 / (4 + 1))) = 0).
  { intros j. replace (0 + INR j * (0 / (4 + 1))) with 0 by (field; lra).
    apply normalize_angle_id, zero_canonical. }
  rewrite !Hth. unfold straight_dense. simpl INR.
  repeat (f_equal; try (field; lra)).
Qed.

Lemma convert_straight_solution :
  map convert_State_Pose2D straight_solution = straight_path.
Proof.
  unfold straight_solution, straight_path. cbn [map].
  unfold convert_State_Pose2D. cbn [getX getY getYaw].
  rewrite (normalize_angle_id 0 zero_canonical). reflexivity.
Qed.

(** C2 fails on the code: the planner returns the two-state path from
    (0, 0) to (10, 0), the densifier at spacing 3 turns it into six frames,
    and [makePlan] returns [true] with a plan of two poses, at (0, 0) and
    (2, 0): the plan is cut at the raw path's length and does not reach the
    goal. *)
Theorem plan_truncated_to_raw_length :
  map convert_State_Pose2D straight_solution = straight_path /\
  snd (interpolatePathPose2D
         (snd (readParameters straight_env (configured straight_env)))
         straight_path) = (true, straight_dense) /\
  List.length straight_dense = 6%nat /\
  fst (snd straight_run) = true /\
  List.length (snd (snd straight_run)) = 2%nat /\
  map planar (snd (snd straight_run)) = [(0, 0); (2, 0)].
Proof.
  assert (Hspacing : max_dist_between_pathframes_
                       (snd (readParameters straight_env
                               (configured straight_env))) = 3).
  { apply readParameters_spacing; [reflexivity | lra]. }
  assert (Hrun : snd straight_run =
                 (true, stamped_plan straight_env 2 straight_dense)).
  { unfold straight_run.
    rewrite (accepted_solved_plan straight_env (configured straight_env)
               _ _ [] straight_solution).
    - rewrite Hspacing, convert_straight_solution, ipo_loop_straight.
      reflexivity.
    - apply sample_request_accepted.
      + simpl. lia.
      + unfold free_space. rewrite int_of_double_0. lia.
      + unfold free_space. rewrite int_of_double_0. lia.
    - reflexivity.
    - reflexivity.
    - reflexivity.
    - simpl. lia. }
  split; [exact convert_straight_solution |].
  split.
  { rewrite interpolatePathPose2D_long by (simpl; lia).
    rewrite Hspacing, ipo_loop_straight. reflexivity. }
  split; [reflexivity |].
  rewrite Hrun. cbn [fst snd].
  split; [reflexivity |]. split; reflexivity.
Qed.

(** * Further properties *)

(** ** The densifier: what it keeps *)

Lemma planar_length_cons (a : Pose2D) (l : list Pose2D) :
  planar_length (a :: l) = run_length a l.
Proof.
  revert a. induction l as [| b t IH]; intros a.
  - reflexivity.
  - change (planar_length (a :: b :: t))
      with (frame_distance a b + planar_length (b :: t)).
    rewrite IH. reflexivity.
Qed.

Lemma run_length_app (a : Pose2D) (l1 l2 : list Pose2D) :
  run_length a (l1 ++ l2) = run_length a l1 + run_length (last l1 a) l2.
Proof.
  revert a. induction l1 as [| b t IH]; intros a.
  - simpl. ring.
  - change (run_length a ((b :: t) ++ l2))
      with (frame_distance a b + run_length b (t ++ l2)).
    rewrite IH, last_cons_default. simpl. ring.
Qed.

Lemma substep_eq (dx dy n : R) :
  0 <= n ->
  sqrt (dx / (n + 1) * (dx / (n + 1)) + dy / (n + 1) * (dy / (n + 1)))
  = sqrt (dx * dx + dy * dy) / (n + 1).
Proof.
  intros Hn.
  assert (Hq : 0 < / (n + 1)) by (apply Rinv_0_lt_compat; lra).
  replace (dx / (n + 1) * (dx / (n + 1)) + dy / (n + 1) * (dy / (n + 1)))
    with ((dx * dx + dy * dy) * (/ (n + 1) * / (n + 1)))
    by (unfold Rdiv; ring).
  rewrite sqrt_mult; [| nra | nra].
  rewrite (sqrt_square (/ (n + 1))) by lra. reflexivity.
Qed.

(** Frames laid out at equal steps: their run length is the number of steps
    times the step. *)
Lemma affine_run_length (lx ly dx dy : R) (g : nat -> R) (n : nat) :
  forall (s : nat) (a : Pose2D),
    x a = lx + INR s * dx -> y a = ly + INR s * dy ->
    let f := fun j : nat =>
               mkPose2D (lx + INR j * dx) (ly + INR j * dy) (g j) in
    run_length a (map f (seq (S s) n)) = INR n * sqrt (dx * dx + dy * dy).
Proof.
  induction n as [| n IH]; intros s a Hx Hy f.
  - simpl. ring.
  - change (seq (S s) (S n)) with (S s :: seq (S (S s)) n).
    change (map f (S s :: seq (S (S s)) n))
      with (f (S s) :: map f (seq (S (S s)) n)).
    change (run_length a (f (S s) :: map f (seq (S (S s)) n)))
      with (frame_distance a (f (S s))
            + run_length (f (S s)) (map f (seq (S (S s)) n))).
    pose proof (IH (S s) (f (S s)) eq_refl eq_refl) as Hrest.
    cbv zeta in Hrest. fold f in Hrest. rewrite Hrest.
    rewrite (frame_distance_diff a (f (S s)) dx dy).
    + rewrite (S_INR n). ring.
    + unfold f. cbn [x]. rewrite Hx, S_INR. ring.
    + unfold f. cbn [y]. rewrite Hy, S_INR. ring.
Qed.

(** What one pass of the outer loop appends is as long as the gap it
    fills. *)
Lemma inserted_frames_run_length (m : R) (last_frame curr_frame : Pose2D) :
  0 < m ->
  run_length last_frame (inserted_frames m last_frame curr_frame ++ [curr_frame])
  = frame_distance last_frame curr_frame.
Proof.
  intros Hm. unfold inserted_frames, frame_distance.
  set (DX := x curr_frame - x last_frame).
  set (DY := y curr_frame - y last_frame).
  set (d := sqrt (DX * DX + DY * DY)).
  unfold Rgtb, Rltb. destruct (Rlt_dec m d) as [Hfar | Hnear].
  - set (N := ceil (d / m)).
    destruct (ceil_bounds (d / m)) as [HN _]. fold N in HN.
    assert (Hdm : d = d / m * m) by (field; lra).
    assert (H1 : 1 < d / m) by (apply Rmult_lt_reg_r with m; lra).
    assert (HNpos : (0 < N)%Z) by (apply lt_IZR; lra).
    destruct (in_int_range N) eqn:Hfit;
      [| rewrite (int_of_double_overflow N Hfit);
         change (Z.to_nat INT_MIN) with 0%nat; simpl;
         unfold frame_distance; fold DX DY d; ring].
    rewrite (int_of_double_IZR N Hfit).
    assert (HINR : INR (Z.to_nat N) = IZR N).
    { rewrite INR_IZR_INZ, Z2Nat.id; [reflexivity | lia]. }
    rewrite run_length_app.
    pose proof (affine_run_length (x last_frame) (y last_frame)
                  (DX / (IZR N + 1)) (DY / (IZR N + 1))
                  (fun j => normalize_angle
                     (theta last_frame + INR j *
                        (normalize_angle (theta curr_frame - theta last_frame)
                         / (IZR N + 1))))
                  (Z.to_nat N) 0%nat last_frame) as Hrun.
    cbv zeta in Hrun. rewrite Hrun by (simpl INR; ring).
    destruct (affine_chain (d / (IZR N + 1)) (x last_frame) (y last_frame)
                (DX / (IZR N + 1)) (DY / (IZR N + 1))
                (fun j => normalize_angle
                   (theta last_frame + INR j *
                      (normalize_angle (theta curr_frame - theta last_frame)
                       / (IZR N + 1))))
                (Z.to_nat N)) with (s := 0%nat) (a := last_frame)
      as [_ [Hlx Hly]].
    + rewrite substep_eq by lra. fold d. lra.
    + simpl INR. ring.
    + simpl INR. ring.
    + cbn [run_length].
      rewrite (frame_distance_diff _ curr_frame
                 (DX / (IZR N + 1)) (DY / (IZR N + 1))).
      * rewrite substep_eq by lra. fold d. rewrite HINR. field. lra.
      * rewrite Hlx. simpl Nat.add. rewrite HINR. unfold DX. field. lra.
      * rewrite Hly. simpl Nat.add. rewrite HINR. unfold DY. field. lra.
  - simpl. unfold frame_distance. fold DX DY d. ring.
Qed.

Lemma ipo_fold_run_length (m : R) (rest : list Pose2D) :
  0 < m ->
  forall (h : Pose2D) (t : list Pose2D),
    planar_length (fold_left (ipo_step m) rest (h :: t))
    = run_length h t + run_length (last t h) rest.
Proof.
  intros Hm. induction rest as [| c r IH]; intros h t.
  - simpl fold_left. rewrite planar_length_cons. simpl. ring.
  - change (fold_left (ipo_step m) (c :: r) (h :: t))
      with (fold_left (ipo_step m) r (ipo_step m (h :: t) c)).
    rewrite ipo_step_cons, IH, last_snoc, run_length_app.
    rewrite inserted_frames_run_length by exact Hm.
    simpl. ring.
Qed.

(** X1: for a positive spacing the densified path is as long, in the plane, as
    the path it was given: the inserted frames lie on the segments. *)
Theorem densified_length_preserved (self : OMPLPlannerBase)
    (path : list Pose2D) :
  0 < max_dist_between_pathframes_ self ->
  planar_length (snd (snd (interpolatePathPose2D self path)))
  = planar_length path.
Proof.
  intros Hm.
  destruct (Nat.lt_ge_cases (List.length path) 2) as [Hshort | Hlong].
  - destruct (interpolatePathPose2D_short self path Hshort) as [_ ->].
    reflexivity.
  - rewrite (interpolatePathPose2D_long self path Hlong). cbn [snd].
    destruct path as [| first rest]; [reflexivity |].
    unfold ipo_loop. rewrite ipo_fold_run_length by exact Hm.
    rewrite planar_length_cons. simpl. ring.
Qed.

Lemma densified_length_preserved_witness :
  planar_length
    (snd (snd (interpolatePathPose2D (configured straight_env) straight_path)))
  = planar_length straight_path.
Proof.
  apply (densified_length_preserved (configured straight_env) straight_path).
  unfold straight_env. rewrite configured_spacing; lra.
Defined.

Lemma subsequence_refl (l : list Pose2D) : subsequence l l.
Proof. induction l; constructor; assumption. Qed.

Lemma subsequence_app (l1 l2 k1 k2 : list Pose2D) :
  subsequence l1 l2 -> subsequence k1 k2 -> subsequence (l1 ++ k1) (l2 ++ k2).
Proof.
  intros H1 H2. induction H1 as [l | a l1 l2 _ IH | a l1 l2 _ IH].
  - induction l as [| b l IHl]; simpl; [exact H2 | constructor; exact IHl].
  - simpl. constructor. exact IH.
  - simpl. constructor. exact IH.
Qed.

Lemma subsequence_snoc (ins : list Pose2D) (c : Pose2D) :
  subsequence [c] (ins ++ [c]).
Proof.
  induction ins as [| b ins IH]; simpl.
  - apply subsequence_refl.
  - constructor. exact IH.
Qed.

Lemma ipo_fold_subsequence (m : R) (rest : list Pose2D) :
  forall done acc : list Pose2D,
    subsequence done acc ->
    subsequence (done ++ rest) (fold_left (ipo_step m) rest acc).
Proof.
  induction rest as [| c r IH]; intros done acc Hsub.
  - simpl. rewrite app_nil_r. exact Hsub.
  - simpl fold_left.
    replace (done ++ c :: r) with ((done ++ [c]) ++ r)
      by (rewrite <- app_assoc; reflexivity).
    apply IH. unfold ipo_step.
    apply subsequence_app; [exact Hsub | apply subsequence_snoc].
Qed.

(** X2: the densifier never drops or reorders a frame: its input is a
    subsequence of its output, whatever the spacing and the length. *)
Theorem densified_keeps_input (self : OMPLPlannerBase) (path : list Pose2D) :
  subsequence path (snd (snd (interpolatePathPose2D self path))).
Proof.
  destruct (Nat.lt_ge_cases (List.length path) 2) as [Hshort | Hlong].
  - destruct (interpolatePathPose2D_short self path Hshort) as [_ ->].
    apply subsequence_refl.
  - rewrite (interpolatePathPose2D_long self path Hlong). cbn [snd].
    destruct path as [| first rest]; [constructor |].
    unfold ipo_loop.
    apply (ipo_fold_subsequence _ rest [first] [first]).
    apply subsequence_refl.
Qed.


Lemma densify_twice_witness :
  let out := snd (snd (interpolatePathPose2D (configured straight_env)
                         straight_path)) in
  snd (interpolatePathPose2D (configured straight_env) out) = (true, out).
Proof.
  apply (densify_twice (configured straight_env) straight_path).
  - unfold straight_env. rewrite configured_spacing; lra.
  - simpl. lia.
  - unfold straight_env. rewrite configured_spacing by lra.
    exact straight_path_fits.
Defined.

(** ** Conversions *)

Lemma normalize_angle_idempotent (a : R) :
  normalize_angle (normalize_angle a) = normalize_angle a.
Proof. apply normalize_angle_id, normalize_angle_canonical. Qed.

(** X6: reading a state into a pose, writing the pose into a state and reading
    it again gives the same pose: the heading is normalised once. *)
Theorem convert_state_pose_stable (s : SE2State) :
  convert_ScopedState_Pose2D
    (convert_Pose2D_ScopedState (convert_ScopedState_Pose2D s))
  = convert_ScopedState_Pose2D s /\
  convert_State_Pose2D
    (convert_Pose2D_ScopedState (convert_State_Pose2D s))
  = convert_State_Pose2D s /\
  canonical (theta (convert_State_Pose2D s)).
Proof.
  unfold convert_ScopedState_Pose2D, convert_State_Pose2D,
    convert_Pose2D_ScopedState. cbn [x y theta getX getY getYaw].
  rewrite normalize_angle_idempotent.
  repeat split; apply normalize_angle_canonical.
Qed.

(** X5: a pose with a canonical heading survives the trip through a state
    unchanged. *)
Theorem convert_pose_state_roundtrip (p : Pose2D) :
  canonical (theta p) ->
  convert_ScopedState_Pose2D (convert_Pose2D_ScopedState p) = p.
Proof.
  intros Hcan. destruct p as [px0 py0 th]. 
  unfold convert_ScopedState_Pose2D, convert_Pose2D_ScopedState.
  cbn [x y theta getX getY getYaw] in *.
  rewrite (normalize_angle_id th Hcan). reflexivity.
Qed.

Lemma convert_pose_state_roundtrip_witness :
  convert_ScopedState_Pose2D (convert_Pose2D_ScopedState (mkPose2D 3 4 0))
  = mkPose2D 3 4 0.
Proof.
  apply (convert_pose_state_roundtrip (mkPose2D 3 4 0)).
  apply zero_canonical.
Defined.

(** ** Construction and parameters *)

(** X8: after [initialize] the planner is initialised; a further [initialize],
    even with another costmap, only logs a warning and changes nothing. *)
Theorem initialize_once (env env' : Env) (self : OMPLPlannerBase) :
  let first := snd (initialize env self) in
  initialized_ first = true /\
  snd (initialize env' first) = first /\
  exists msg, fst (initialize env' first) = [RosLog Warn msg].
Proof.
  unfold initialize.
  destruct (initialized_ self) eqn:Hinit;
    cbn [negb body bind emit ret fst snd app initialized_ footprint_spec_];
    rewrite ?Hinit; cbn [negb body bind emit ret fst snd app];
    repeat split; try discriminate; eauto.
Qed.

(** The constructor with a costmap yields an initialised planner and logs
    nothing. *)
Theorem constructor_initializes (env : Env) :
  initialized_ (snd (OMPLPlannerBase_init env)) = true /\
  footprint_spec_ (snd (OMPLPlannerBase_init env)) = getRobotFootprint env /\
  inscribed_radius_ (snd (OMPLPlannerBase_init env)) = getInscribedRadius env /\
  circumscribed_radius_ (snd (OMPLPlannerBase_init env))
    = getCircumscribedRadius env /\
  fst (OMPLPlannerBase_init env) = [].
Proof. repeat split. Qed.

(** X9: [readParameters] always leaves a positive frame spacing: the configured
    one when that is positive, and otherwise 0.10 together with a warning;
    a warning is logged in no other case. *)
Theorem readParameters_spacing_rule (env : Env) (self : OMPLPlannerBase) :
  let d := param (param_max_dist_between_pathframes env) (10 / 100) in
  let self' := snd (readParameters env self) in
  0 < max_dist_between_pathframes_ self' /\
  (0 < d <-> max_dist_between_pathframes_ self' = d) /\
  (d <= 0 <-> exists msg, fst (readParameters env self) = [RosLog Warn msg]) /\
  (0 < d <-> fst (readParameters env self) = []) /\
  (max_dist_between_pathframes_ self' = d \/
   max_dist_between_pathframes_ self' = 10 / 100).
Proof.
  unfold readParameters, Rleb.
  destruct (Rle_dec _ 0) as [Hle | Hgt];
    cbn [body bind emit ret fst snd app max_dist_between_pathframes_].
  - split; [lra |]. split; [split; intros H; lra |].
    split; [split; [eauto | intros _; exact Hle] |].
    split; [split; [lra | discriminate] |]. right. reflexivity.
  - split; [lra |]. split; [split; [reflexivity | lra] |].
    split; [split; [lra | intros [msg H]; discriminate] |].
    split; [split; [reflexivity | lra] |]. left. reflexivity.
Qed.

(** ** Planner selection *)

(** X10: a name selects a planner exactly when it is that planner's name: the
    nine names and the nine planners correspond one to one. *)
Theorem planner_of_name_iff (name : string) (k : PlannerKind) :
  planner_of_name name = Some k <-> name = name_of_planner k.
Proof.
  split.
  - unfold planner_of_name.
    repeat match goal with
           | |- context [String.eqb name ?s] =>
               destruct (String.eqb_spec name s) as [Heq | _];
               [intros H; injection H as <-; exact Heq |]
           end.
    discriminate.
  - intros ->. destruct k; reflexivity.
Qed.

(** X11: [setPlannerType] passes a planner on exactly for the nine supported
    names, and exactly then logs nothing fatal; it always calls [setPlanner]
    once, with the handle it returns, and stores the name it read. *)
Theorem setPlannerType_handle (env : Env) (self : OMPLPlannerBase) :
  let run := setPlannerType env self in
  (In (planner_name env) supported_names <-> snd (snd run) <> None) /\
  (In (planner_name env) supported_names <->
   existsb is_fatal (fst run) = false) /\
  filter is_planner_event (fst run) = [SetPlanner (snd (snd run))] /\
  planner_type_ (fst (snd run)) = planner_name env.
Proof.
  cbv zeta.
  assert (Hname : planner_type_ (fst (snd (setPlannerType env self)))
                  = planner_name env).
  { unfold setPlannerType. cbv zeta. fold (planner_name env).
    destruct (planner_of_name (planner_name env)); reflexivity. }
  rewrite setPlannerType_trace.
  destruct (setPlannerType_fields env self) as [-> _].
  destruct (in_dec string_dec (planner_name env) supported_names)
    as [Hin | Hout].
  - pose proof (planner_of_name_supported _ Hin) as Hsome.
    destruct (planner_of_name (planner_name env)) as [k |]; [| contradiction].
    repeat split; auto; discriminate.
  - rewrite (planner_of_name_unsupported _ Hout).
    repeat split; auto; try contradiction; intros H; try discriminate;
      exfalso; apply H; reflexivity.
Qed.

(** ** The two cost tests *)

(** The truncations between zero and a bound [m] are those of the numbers
    strictly between -1 and [m + 1]. *)
Lemma truncate_interval (m : Z) (c : R) :
  (0 <= m)%Z -> ((0 <= truncate c <= m)%Z <-> -1 < c < IZR m + 1).
Proof.
  intros Hmax. unfold truncate.
  assert (HM : 0 <= IZR m) by (apply IZR_le; exact Hmax).
  destruct (Rle_dec 0 c) as [Hpos | Hneg].
  - unfold floor. destruct (base_Int_part c) as [Hle Hgt]. split.
    + intros [_ Hup]. apply IZR_le in Hup. lra.
    + intros [_ Hup].
      assert (Hlow : (-1 < Int_part c)%Z) by (apply lt_IZR; lra).
      assert (Hup' : (Int_part c < m + 1)%Z)
        by (apply lt_IZR; rewrite plus_IZR; lra).
      lia.
  - destruct (ceil_bounds c) as [Hlo Hhi]. split.
    + intros [Hz _]. apply IZR_le in Hz. lra.
    + intros [Hc _].
      assert (Hlow : (-1 < ceil c)%Z) by (apply lt_IZR; lra).
      assert (Hup : (ceil c < 1)%Z) by (apply lt_IZR; lra).
      lia.
Qed.

(** The costs the endpoint test lets through.  A cost too large for an
    [int] is stored as [INT_MIN] and rejected as negative. *)
Lemma endpoint_in_collision_interval (self : OMPLPlannerBase) (c : R) :
  (0 <= max_footprint_cost_ self)%Z ->
  (endpoint_in_collision self c = false <->
   -1 < c < IZR (max_footprint_cost_ self) + 1).
Proof.
  intros Hmax. rewrite endpoint_in_collision_spec.
  rewrite <- (truncate_interval _ c Hmax).
  pose proof (max_footprint_cost_range self) as Hfit.
  apply in_int_range_spec in Hfit.
  destruct (int_of_double_cases c) as [[-> _] | Hmin]; [reflexivity |].
  split.
  - rewrite Hmin. unfold INT_MIN. lia.
  - intros Htr. unfold int_of_double.
    replace (in_int_range (truncate c)) with true; [exact Htr |].
    symmetry. apply in_int_range_spec. unfold INT_MIN, INT_MAX in *. lia.
Qed.

(** X12: a state the validity checker accepts would also pass the endpoint test
    of [makePlan]. *)
Theorem valid_state_passes_endpoint_test (env : Env) (self : OMPLPlannerBase)
    (s : SE2State) :
  snd (isStateValid2DGrid env self s) = true ->
  endpoint_in_collision self
    (snd (footprintCost env self (convert_State_Pose2D s))) = false.
Proof.
  intros Hvalid. apply isStateValid2DGrid_spec in Hvalid. cbv zeta in Hvalid.
  set (c := snd (footprintCost env self (convert_State_Pose2D s))) in *.
  assert (Hmax : (0 <= max_footprint_cost_ self)%Z) by (apply le_IZR; lra).
  apply endpoint_in_collision_interval; [exact Hmax | lra].
Qed.

Lemma valid_state_passes_endpoint_test_witness :
  endpoint_in_collision (configured straight_env)
    (snd (footprintCost straight_env (configured straight_env)
            (convert_State_Pose2D (mkSE2State 1 1 0)))) = false.
Proof.
  apply (valid_state_passes_endpoint_test straight_env
           (configured straight_env) (mkSE2State 1 1 0)).
  apply isStateValid2DGrid_spec. cbv zeta.
  unfold straight_env. rewrite sample_cost by (simpl; lia).
  rewrite sample_ceiling. unfold free_space. lra.
Defined.

(** X13: with a ceiling that is not negative, the endpoint test of [makePlan]
    lets through exactly the costs strictly between -1 and the ceiling
    plus one: the cost is cut to an integer before it is compared. *)
Theorem endpoint_test_interval (self : OMPLPlannerBase) (c : R) :
  (0 <= max_footprint_cost_ self)%Z ->
  (endpoint_in_collision self c = false <->
   -1 < c < IZR (max_footprint_cost_ self) + 1).
Proof. apply endpoint_in_collision_interval. Qed.

Lemma endpoint_test_interval_witness :
  endpoint_in_collision (configured straight_env) 100 = false <->
  -1 < 100 < IZR (max_footprint_cost_ (configured straight_env)) + 1.
Proof.
  apply (endpoint_test_interval (configured straight_env) 100).
  unfold straight_env. rewrite sample_ceiling. lia.
Defined.

(** ** Calls that fail early *)

(** Events of a kind that is neither a log, a cost query nor a planner
    selection do not occur in the calls [makePlan] makes. *)
Section Quiet.

Variable p : Event -> bool.
Hypothesis p_log : forall l msg, p (RosLog l msg) = false.
Hypothesis p_cost : forall q, p (CallFootprintCost q) = false.
Hypothesis p_planner : forall k, p (SetPlanner k) = false.

Lemma quiet_readParameters (env : Env) (s : OMPLPlannerBase) :
  existsb p (fst (readParameters env s)) = false.
Proof.
  destruct (readParameters_trace env s) as [-> | [? ->]]; simpl;
    rewrite ?p_log; reflexivity.
Qed.

Lemma quiet_footprintCost (env : Env) (s : OMPLPlannerBase) (q : Pose2D) :
  existsb p (fst (footprintCost env s q)) = false.
Proof.
  destruct (footprintCost_trace env s q) as [-> | [? ->]]; simpl;
    rewrite ?p_log, ?p_cost; reflexivity.
Qed.

Lemma quiet_setPlannerType (env : Env) (s : OMPLPlannerBase) :
  existsb p (fst (setPlannerType env s)) = false.
Proof.
  rewrite setPlannerType_trace.
  destruct (planner_of_name _); simpl; rewrite ?p_log, ?p_planner; reflexivity.
Qed.

Lemma quiet_checker_calls (env : Env) (s : OMPLPlannerBase)
    (states : list SE2State) :
  existsb p (fst (checker_calls env s states)) = false.
Proof.
  pose proof (checker_calls_trace env s states) as H.
  induction H as [| e l He _ IH]; [reflexivity |].
  cbn [existsb]. rewrite IH.
  destruct He as [[q ->] | [msg ->]]; rewrite ?p_log, ?p_cost; reflexivity.
Qed.

Lemma quiet_interpolatePathPose2D (s : OMPLPlannerBase) (l : list Pose2D) :
  existsb p (fst (interpolatePathPose2D s l)) = false.
Proof.
  destruct (interpolatePathPose2D_trace s l) as [-> | [? ->]]; simpl;
    rewrite ?p_log; reflexivity.
Qed.

End Quiet.

Ltac quiet p :=
  rewrite ?(quiet_readParameters p), ?(quiet_footprintCost p),
    ?(quiet_setPlannerType p), ?(quiet_interpolatePathPose2D p),
    ?(quiet_checker_calls p)
    by (intros; reflexivity).

(** X14: a planner that was never initialised refuses the request: it logs one
    error, returns [false] and leaves the caller's plan as it was. *)
Theorem makePlan_uninitialised (env : Env) (self : OMPLPlannerBase)
    (start goal : PoseStamped) (plan : list PoseStamped) :
  initialized_ self = false ->
  exists msg,
    makePlan env self start goal plan = ([RosLog Error msg], (false, plan)).
Proof.
  intros Hinit. rewrite makePlan_unfold, Hinit. cbn [negb].
  eexists. reflexivity.
Qed.

Lemma makePlan_uninitialised_witness :
  exists msg,
    makePlan straight_env OMPLPlannerBase_new
             (pose_at 0 0 "map") (pose_at 10 0 "map")
             [pose_at 7 7 "map"]
    = ([RosLog Error msg], (false, [pose_at 7 7 "map"])).
Proof.
  apply (makePlan_uninitialised straight_env OMPLPlannerBase_new).
  reflexivity.
Defined.

(** X15: an initialised planner never builds on the plan it is handed: the call
    behaves the same for every incoming plan, and when it returns [false]
    the plan is empty. *)
Theorem makePlan_clears_plan (env : Env) (self : OMPLPlannerBase)
    (start goal : PoseStamped) (plan0 : list PoseStamped) :
  initialized_ self = true ->
  makePlan env self start goal plan0 = makePlan env self start goal [] /\
  (fst (snd (makePlan env self start goal plan0)) = true \/
   snd (snd (makePlan env self start goal plan0)) = []).
Proof.
  intros Hinit. split.
  - rewrite !makePlan_unfold, Hinit. reflexivity.
  - rewrite makePlan_unfold, Hinit. cbv beta zeta. cbn [negb].
    repeat (split_top; [solve [right; reflexivity] |]).
    left. reflexivity.
Qed.

Lemma makePlan_clears_plan_witness :
  makePlan straight_env (configured straight_env)
           (pose_at 0 0 "map") (pose_at 10 0 "map") [pose_at 7 7 "map"]
  = makePlan straight_env (configured straight_env)
             (pose_at 0 0 "map") (pose_at 10 0 "map") [] /\
  (fst (snd (makePlan straight_env (configured straight_env)
               (pose_at 0 0 "map") (pose_at 10 0 "map")
               [pose_at 7 7 "map"])) = true \/
   snd (snd (makePlan straight_env (configured straight_env)
               (pose_at 0 0 "map") (pose_at 10 0 "map")
               [pose_at 7 7 "map"])) = []).
Proof.
  apply (makePlan_clears_plan straight_env (configured straight_env)).
  apply configured_fields.
Defined.

(** X16: a goal in another frame than the costmap's is refused at once: the call
    returns [false] with an empty plan, and neither the bounds are set, nor
    a footprint cost queried, nor a planner touched. *)
Theorem makePlan_frame_mismatch (env : Env) (self : OMPLPlannerBase)
    (start goal : PoseStamped) (plan0 : list PoseStamped) :
  initialized_ self = true ->
  frame_id (header goal) <> getGlobalFrameID env ->
  snd (makePlan env self start goal plan0) = (false, []) /\
  existsb is_set_bounds (fst (makePlan env self start goal plan0)) = false /\
  existsb is_cost_call (fst (makePlan env self start goal plan0)) = false /\
  planner_untouched (fst (makePlan env self start goal plan0)) = true.
Proof.
  intros Hinit Hframe. apply String.eqb_neq in Hframe.
  rewrite makePlan_unfold, Hinit, Hframe. cbv beta zeta. cbn [negb fst snd].
  unfold planner_untouched. rewrite !existsb_app.
  quiet is_set_bounds. quiet is_cost_call. 
  destruct (readParameters_trace env self) as [-> | [? ->]];
    repeat split.
Qed.

Lemma makePlan_frame_mismatch_witness :
  snd (makePlan straight_env (configured straight_env)
         (pose_at 0 0 "map") (pose_at 10 0 "odom") []) = (false, []) /\
  existsb is_set_bounds
    (fst (makePlan straight_env (configured straight_env)
            (pose_at 0 0 "map") (pose_at 10 0 "odom") [])) = false /\
  existsb is_cost_call
    (fst (makePlan straight_env (configured straight_env)
            (pose_at 0 0 "map") (pose_at 10 0 "odom") [])) = false /\
  planner_untouched
    (fst (makePlan straight_env (configured straight_env)
            (pose_at 0 0 "map") (pose_at 10 0 "odom") [])) = true.
Proof.
  apply (makePlan_frame_mismatch straight_env (configured straight_env)).
  - apply configured_fields.
  - simpl. discriminate.
Defined.

(** ** Calls that reach the solver *)

Lemma publish_flag_kept (env : Env) (self : OMPLPlannerBase) :
  publish_diagnostics_
    (fst (snd (setPlannerType env (snd (readParameters env self)))))
  = publish_diagnostics_ self.
Proof.
  destruct (setPlannerType_fields env (snd (readParameters env self)))
    as [_ [_ [_ [_ ->]]]].
  apply readParameters_fields.
Qed.

Lemma quiet_publishPlan (p : Event -> bool) (plan : list PoseStamped) :
  (forall l msg, p (RosLog l msg) = false) ->
  (forall q, p (PublishPlan q) = false) ->
  existsb p (fst (publishPlan plan)) = false.
Proof.
  intros Hlog Hplan.
  destruct (publishPlan_trace plan) as [[? ->] | ->]; simpl;
    rewrite ?Hlog, ?Hplan; reflexivity.
Qed.

(** X19: a call that returns [true] has passed every check, has had its solution
    simplified and has selected a planner. *)
Theorem makePlan_success_accepted (env : Env) (self : OMPLPlannerBase)
    (start goal : PoseStamped) (plan0 : list PoseStamped) :
  fst (snd (makePlan env self start goal plan0)) = true ->
  accepted env self start goal /\
  existsb is_simplify (fst (makePlan env self start goal plan0)) = true /\
  planner_untouched (fst (makePlan env self start goal plan0)) = false.
Proof.
  rewrite makePlan_unfold. unfold accepted, endpoint_rejected, planner_untouched.
  cbv beta zeta.
  destruct (initialized_ self); cbn [negb]; [| discriminate].
  destruct (String.eqb _ _); cbn [negb]; [| discriminate].
  destruct (endpoint_in_collision _ _); [discriminate |].
  destruct (endpoint_in_collision _ _); [discriminate |].
  destruct (satisfiesBounds _ (allocState env 0)); cbn [negb]; [| discriminate].
  destruct (satisfiesBounds _ (allocState env 1)); cbn [negb]; [| discriminate].
  split_top; [discriminate |].
  split_top; [discriminate |].
  intros _. cbn [fst]. split; [repeat split |].
  rewrite !existsb_app. quiet is_simplify.
  rewrite setPlannerType_trace.
  split.
  - simpl. rewrite ?orb_true_r. reflexivity.
  - destruct (planner_of_name _); simpl; rewrite ?orb_true_r; reflexivity.
Qed.

Lemma straight_request_accepted :
  accepted straight_env (configured straight_env)
           (pose_at 0 0 "map") (pose_at 10 0 "map").
Proof.
  apply sample_request_accepted.
  - simpl. lia.
  - unfold free_space. rewrite int_of_double_0. lia.
  - unfold free_space. rewrite int_of_double_0. lia.
Qed.

Lemma straight_run_succeeds : fst (snd straight_run) = true.
Proof.
  unfold straight_run.
  rewrite (accepted_solved_plan _ _ _ _ [] straight_solution
             straight_request_accepted);
    [reflexivity | reflexivity | reflexivity | reflexivity | simpl; lia].
Qed.

Lemma makePlan_success_accepted_witness :
  accepted straight_env (configured straight_env)
           (pose_at 0 0 "map") (pose_at 10 0 "map") /\
  existsb is_simplify (fst straight_run) = true /\
  planner_untouched (fst straight_run) = false.
Proof.
  apply (makePlan_success_accepted straight_env (configured straight_env)
           (pose_at 0 0 "map") (pose_at 10 0 "map") []).
  exact straight_run_succeeds.
Defined.

Lemma makePlan_planner_needs_endpoints_witness :
  endpoint_rejected straight_env (configured straight_env)
    (pose_at 10 0 "map") = false /\
  endpoint_rejected straight_env (configured straight_env)
    (pose_at 0 0 "map") = false.
Proof.
  apply (makePlan_planner_needs_endpoints straight_env
           (configured straight_env) (pose_at 0 0 "map") (pose_at 10 0 "map")
           []).
  destruct (accepted_selects_planner _ _ _ _ [] straight_request_accepted)
    as [Hsel _].
  unfold planner_untouched. apply negb_false_iff. apply existsb_exists.
  eexists. split; [exact Hsel | reflexivity].
Defined.

(** X20: the statistics message is published exactly by the calls that return
    [true] with diagnostics switched on; the diagnostics message exactly by
    the calls that pass every check with diagnostics switched on, whether
    the solver succeeds or not. *)
Theorem makePlan_publishing (env : Env) (self : OMPLPlannerBase)
    (start goal : PoseStamped) (plan0 : list PoseStamped) :
  let run := makePlan env self start goal plan0 in
  (existsb is_publish_stats (fst run) = true <->
   fst (snd run) = true /\ publish_diagnostics_ self = true) /\
  (existsb is_publish_diagnostics (fst run) = true <->
   accepted env self start goal /\ publish_diagnostics_ self = true).
Proof.
  cbv zeta. rewrite makePlan_unfold.
  unfold accepted, endpoint_rejected. cbv beta zeta.
  rewrite !publish_flag_kept.
  destruct (initialized_ self); cbn [negb fst snd];
    [| simpl; intuition discriminate].
  destruct (String.eqb _ _); cbn [negb fst snd];
    [| rewrite !existsb_app; quiet is_publish_stats;
       quiet is_publish_diagnostics; simpl; intuition discriminate].
  destruct (endpoint_in_collision _ _); cbn [fst snd];
    [rewrite !existsb_app; quiet is_publish_stats;
     quiet is_publish_diagnostics; simpl; intuition discriminate |].
  destruct (endpoint_in_collision _ _); cbn [fst snd];
    [rewrite !existsb_app; quiet is_publish_stats;
     quiet is_publish_diagnostics; simpl; intuition discriminate |].
  destruct (satisfiesBounds _ (allocState env 0)); cbn [negb fst snd];
    [| rewrite !existsb_app; quiet is_publish_stats;
       quiet is_publish_diagnostics; simpl; intuition discriminate].
  destruct (satisfiesBounds _ (allocState env 1)); cbn [negb fst snd];
    [| rewrite !existsb_app; quiet is_publish_stats;
       quiet is_publish_diagnostics; simpl; intuition discriminate].
  repeat split_top; cbn [fst snd]; rewrite !existsb_app;
    destruct (publish_diagnostics_ self);
    try destruct (interpolate_path_ _);
    quiet is_publish_stats; quiet is_publish_diagnostics;
    rewrite ?(quiet_publishPlan is_publish_stats),
      ?(quiet_publishPlan is_publish_diagnostics) by (intros; reflexivity);
    simpl; intuition discriminate.
Qed.

Lemma filter_quiet (p : Event -> bool) (l : Trace) :
  existsb p l = false -> filter p l = [].
Proof.
  induction l as [| e l IH]; [reflexivity |].
  simpl. intros H. apply orb_false_iff in H. destruct H as [-> Hl].
  apply IH. exact Hl.
Qed.

Ltac quiet_filter p :=
  rewrite ?(filter_quiet p (fst (readParameters _ _))),
    ?(filter_quiet p (fst (footprintCost _ _ _))),
    ?(filter_quiet p (fst (setPlannerType _ _))),
    ?(filter_quiet p (fst (interpolatePathPose2D _ _))),
    ?(filter_quiet p (fst (checker_calls _ _ _)))
    by (first [apply quiet_readParameters | apply quiet_footprintCost
              | apply quiet_setPlannerType
              | apply quiet_interpolatePathPose2D
              | apply quiet_checker_calls]; intros; reflexivity).

(** X21: the plan is published once, as returned, by the calls that return
    [true] with a plan that is not empty, and by no other call. *)
Theorem makePlan_publishes_plan (env : Env) (self : OMPLPlannerBase)
    (start goal : PoseStamped) (plan0 : list PoseStamped) :
  filter is_publish_plan (fst (makePlan env self start goal plan0)) =
    match snd (makePlan env self start goal plan0) with
    | (true, pose1 :: rest) => [PublishPlan (pose1 :: rest)]
    | _ => []
    end.
Proof.
  rewrite makePlan_unfold. cbv beta zeta.
  split_top; [reflexivity |].
  repeat (split_top;
          [solve [cbn [fst snd]; rewrite !filter_app;
                  quiet_filter is_publish_plan;
                  repeat split_cond; reflexivity] |]).
  cbn [fst snd]. rewrite !filter_app. quiet_filter is_publish_plan.
  unfold publishPlan.
  destruct (stamped_plan env _ _) as [| pose1 rest];
    repeat split_cond; quiet_filter is_publish_plan; reflexivity.
Qed.

Lemma planner_name_stored (env : Env) (self : OMPLPlannerBase) :
  planner_type_ (fst (snd (setPlannerType env self))) = planner_name env.
Proof.
  unfold setPlannerType. cbv zeta. fold (planner_name env).
  destruct (planner_of_name (planner_name env)); reflexivity.
Qed.

(** X22: a call publishes at most one diagnostics message; the message names the
    configured planner and either reports success or reports a failure with
    a trajectory of size zero. *)
Theorem makePlan_diagnostics (env : Env) (self : OMPLPlannerBase)
    (start goal : PoseStamped) (plan0 : list PoseStamped) :
  exists ds : list OMPLPlannerDiagnostics,
    filter is_publish_diagnostics (fst (makePlan env self start goal plan0))
      = map PublishDiagnostics ds /\
    (List.length ds <= 1)%nat /\
    Forall (diagnostics_consistent env) ds.
Proof.
  rewrite makePlan_unfold. cbv beta zeta.
  rewrite !planner_name_stored.
  split_top; [exists []; repeat split; auto |].
  repeat (split_top;
          [solve [cbn [fst snd]; rewrite !filter_app;
                  quiet_filter is_publish_diagnostics;
                  rewrite ?(filter_quiet is_publish_diagnostics
                              (fst (publishPlan _)))
                    by (apply quiet_publishPlan; intros; reflexivity);
                  repeat split_cond; simpl;
                  try (cbn [negb] in *; discriminate);
                  first [solve [exists []; repeat split; auto]
                        | eexists [_]; split; [reflexivity |];
                          split; [simpl; lia |];
                          constructor; [| constructor];
                          unfold diagnostics_consistent; simpl; auto 10]] |]).
  cbn [fst snd]. rewrite !filter_app.
  quiet_filter is_publish_diagnostics.
  rewrite ?(filter_quiet is_publish_diagnostics (fst (publishPlan _)))
    by (apply quiet_publishPlan; intros; reflexivity).
  repeat split_cond; quiet_filter is_publish_diagnostics; simpl;
    try (cbn [negb] in *; discriminate);
    first [solve [exists []; repeat split; auto]
          | eexists [_]; split; [reflexivity |];
            split; [simpl; lia |];
            constructor; [| constructor];
            unfold diagnostics_consistent; simpl; auto 10].
Qed.

(** X23: when the solver finds nothing, an accepted request returns [false] with
    an empty plan; nothing is simplified and neither a plan nor statistics
    are published. *)
Theorem makePlan_unsolved (env : Env) (self : OMPLPlannerBase)
    (start goal : PoseStamped) (plan0 : list PoseStamped) :
  accepted env self start goal ->
  (forall (ss : SimpleSetup) (t : R), ompl_solve env ss t = false) ->
  snd (makePlan env self start goal plan0) = (false, []) /\
  existsb is_simplify (fst (makePlan env self start goal plan0)) = false /\
  existsb is_publish_plan (fst (makePlan env self start goal plan0)) = false /\
  existsb is_publish_stats (fst (makePlan env self start goal plan0)) = false /\
  In (RosLog Warn "No path found") (fst (makePlan env self start goal plan0)).
Proof.
  intros [Hinit [Hframe [Hgoal [Hstart [Hs Hg]]]]] Hsolve.
  unfold endpoint_rejected in Hgoal, Hstart.
  rewrite makePlan_unfold. cbv beta zeta.
  rewrite Hinit, Hframe, Hgoal, Hstart, Hs, Hg, Hsolve. cbn [negb fst snd].
  split; [reflexivity |].
  rewrite !existsb_app.
  quiet is_simplify. quiet is_publish_plan. quiet is_publish_stats.
  split; [destruct (publish_diagnostics_ _); reflexivity |].
  split; [destruct (publish_diagnostics_ _); reflexivity |].
  split; [destruct (publish_diagnostics_ _); reflexivity |].
  do 8 (apply in_or_app; right). apply in_or_app. left. left. reflexivity.
Qed.

Lemma makePlan_unsolved_witness :
  snd (makePlan unsolved_env (configured unsolved_env)
         (pose_at 0 0 "map") (pose_at 10 0 "map") []) = (false, []) /\
  existsb is_simplify
    (fst (makePlan unsolved_env (configured unsolved_env)
            (pose_at 0 0 "map") (pose_at 10 0 "map") [])) = false /\
  existsb is_publish_plan
    (fst (makePlan unsolved_env (configured unsolved_env)
            (pose_at 0 0 "map") (pose_at 10 0 "map") [])) = false /\
  existsb is_publish_stats
    (fst (makePlan unsolved_env (configured unsolved_env)
            (pose_at 0 0 "map") (pose_at 10 0 "map") [])) = false /\
  In (RosLog Warn "No path found")
    (fst (makePlan unsolved_env (configured unsolved_env)
            (pose_at 0 0 "map") (pose_at 10 0 "map") [])).
Proof.
  apply (makePlan_unsolved unsolved_env (configured unsolved_env)).
  - apply sample_request_accepted.
    + simpl. lia.
    + unfold free_space. rewrite int_of_double_0. lia.
    + unfold free_space. rewrite int_of_double_0. lia.
  - reflexivity.
Defined.

Lemma createQuaternionFromYaw_unit (yaw : R) :
  vertical_unit (createQuaternionFromYaw yaw).
Proof.
  unfold vertical_unit, createQuaternionFromYaw. cbn [qx qy qz qw].
  repeat split.
  pose proof (sin2_cos2 (yaw / 2)) as H. unfold Rsqr in H. exact H.
Qed.

Lemma stamped_plan_well_formed (env : Env) (n : nat) (path : list Pose2D) :
  Forall (well_formed_pose env) (stamped_plan env n path).
Proof.
  unfold stamped_plan. apply Forall_forall. intros p Hp.
  apply in_map_iff in Hp. destruct Hp as [i [<- _]].
  unfold well_formed_pose.
  cbn [header frame_id pose position orientation convert_Pose2D_Pose pz].
  repeat split. apply createQuaternionFromYaw_unit.
Qed.

(** X24: every pose of the plan an initialised planner returns is in the
    costmap's frame, lies on the ground plane and carries a unit quaternion
    about the vertical axis. *)
Theorem makePlan_plan_well_formed (env : Env) (self : OMPLPlannerBase)
    (start goal : PoseStamped) (plan0 : list PoseStamped) :
  initialized_ self = true ->
  Forall (well_formed_pose env) (snd (snd (makePlan env self start goal plan0))).
Proof.
  intros Hinit. rewrite makePlan_unfold, Hinit. cbv beta zeta. cbn [negb].
  repeat (split_top; [solve [cbn [snd]; constructor] |]).
  cbn [snd]. apply stamped_plan_well_formed.
Qed.

Lemma makePlan_plan_well_formed_witness :
  Forall (well_formed_pose straight_env) (snd (snd straight_run)).
Proof.
  apply (makePlan_plan_well_formed straight_env (configured straight_env)).
  apply configured_fields.
Defined.

Lemma map_nth_seq (A : Type) (g : Pose2D -> A) (l : list Pose2D) (d : Pose2D) :
  map (fun i : nat => g (nth i l d)) (seq 0 (List.length l)) = map g l.
Proof.
  induction l as [| a l IH]; [reflexivity |].
  cbn [List.length seq map nth]. f_equal.
  rewrite <- seq_shift, map_map. exact IH.
Qed.

Lemma stamped_plan_positions (env : Env) (path : list Pose2D) :
  map planar (stamped_plan env (List.length path) path)
  = map frame_position path.
Proof.
  unfold stamped_plan. rewrite map_map.
  apply (map_nth_seq (R * R) frame_position path Pose2D_default).
Qed.

Lemma converted_positions (sol : list SE2State) :
  map frame_position (map convert_State_Pose2D sol) = map state_position sol.
Proof. rewrite map_map. reflexivity. Qed.

Lemma with_interpolate_path_accepted (b : bool) (env : Env)
    (self : OMPLPlannerBase) (start goal : PoseStamped) :
  accepted env self start goal ->
  accepted (with_interpolate_path b env) self start goal.
Proof.
  unfold accepted, endpoint_rejected, readParameters, footprintCost,
    convert_Pose_Pose2D, map_bounds.
  cbn [with_interpolate_path param_max_dist_between_pathframes
       param_max_footprint_cost param_relative_validity_check_resolution
       param_interpolate_path param_solver_maxtime getGlobalFrameID
       getSizeInMetersX getSizeInMetersY getOriginX getOriginY
       world_footprintCost getEulerYaw allocState].
  destruct (Rleb _ 0); intros H; exact H.
Qed.

(** X25: with interpolation switched off, a solved request returns the planner's
    path as it is: one pose per state, at the states' positions, in their
    order, whatever the length of the path. *)
Theorem makePlan_without_interpolation (env : Env) (self : OMPLPlannerBase)
    (start goal : PoseStamped) (plan0 : list PoseStamped)
    (sol : list SE2State) :
  accepted env self start goal ->
  (forall (ss : SimpleSetup) (t : R), ompl_solve env ss t = true) ->
  (forall ss : SimpleSetup, ompl_getSolutionPath env ss = sol) ->
  param_interpolate_path env = Some false ->
  fst (snd (makePlan env self start goal plan0)) = true /\
  map planar (snd (snd (makePlan env self start goal plan0)))
  = map state_position sol.
Proof.
  intros [Hinit [Hframe [Hgoal [Hstart [Hs Hg]]]]] Hsolve Hpath Hoff.
  unfold endpoint_rejected in Hgoal, Hstart.
  rewrite makePlan_unfold. cbv beta zeta.
  rewrite Hinit, Hframe, Hgoal, Hstart, Hs, Hg, Hsolve, Hpath. cbn [negb].
  destruct (setPlannerType_fields env (snd (readParameters env self)))
    as [_ [_ [Hinterp _]]].
  destruct (readParameters_fields env self) as [_ [_ [_ [_ [_ [_ Hinterp1]]]]]].
  rewrite Hinterp, Hinterp1, Hoff. cbn [param andb fst snd].
  split; [reflexivity |].
  rewrite <- (length_map convert_State_Pose2D sol).
  rewrite stamped_plan_positions. apply converted_positions.
Qed.

Lemma makePlan_without_interpolation_witness :
  fst (snd (makePlan (with_interpolate_path false straight_env)
              (configured straight_env)
              (pose_at 0 0 "map") (pose_at 10 0 "map") [])) = true /\
  map planar
    (snd (snd (makePlan (with_interpolate_path false straight_env)
                 (configured straight_env)
                 (pose_at 0 0 "map") (pose_at 10 0 "map") [])))
  = map state_position straight_solution.
Proof.
  apply (makePlan_without_interpolation
           (with_interpolate_path false straight_env)
           (configured straight_env)).
  - apply with_interpolate_path_accepted. exact straight_request_accepted.
  - reflexivity.
  - reflexivity.
  - reflexivity.
Defined.

(** X26: with interpolation on, a solution of fewer than two states makes the
    call fail although the solver succeeded: the solution is simplified,
    then the densifier refuses it, and the call returns [false] with an
    empty plan and publishes neither plan nor statistics. *)
Theorem makePlan_degenerate_solution (env : Env) (self : OMPLPlannerBase)
    (start goal : PoseStamped) (plan0 : list PoseStamped)
    (sol : list SE2State) :
  accepted env self start goal ->
  (forall (ss : SimpleSetup) (t : R), ompl_solve env ss t = true) ->
  (forall ss : SimpleSetup, ompl_getSolutionPath env ss = sol) ->
  param (param_interpolate_path env) true = true ->
  (List.length sol < 2)%nat ->
  snd (makePlan env self start goal plan0) = (false, []) /\
  existsb is_simplify (fst (makePlan env self start goal plan0)) = true /\
  existsb is_publish_plan (fst (makePlan env self start goal plan0)) = false /\
  existsb is_publish_stats (fst (makePlan env self start goal plan0)) = false.
Proof.
  intros [Hinit [Hframe [Hgoal [Hstart [Hs Hg]]]]] Hsolve Hpath Hipo Hlen.
  unfold endpoint_rejected in Hgoal, Hstart.
  rewrite makePlan_unfold. cbv beta zeta.
  rewrite Hinit, Hframe, Hgoal, Hstart, Hs, Hg, Hsolve, Hpath. cbn [negb].
  destruct (setPlannerType_fields env (snd (readParameters env self)))
    as [_ [_ [Hinterp _]]].
  destruct (readParameters_fields env self) as [_ [_ [_ [_ [_ [_ Hinterp1]]]]]].
  rewrite Hinterp, Hinterp1, Hipo.
  match goal with
  | |- context [interpolatePathPose2D ?s ?p] =>
      destruct (interpolatePathPose2D_short s p) as [Hfail _];
      [rewrite length_map; exact Hlen | rewrite Hfail]
  end.
  cbn [negb andb fst snd]. split; [reflexivity |].
  rewrite !existsb_app.
  quiet is_simplify. quiet is_publish_plan. quiet is_publish_stats.
  repeat split; destruct (publish_diagnostics_ _); reflexivity.
Qed.

Lemma makePlan_degenerate_solution_witness :
  snd (makePlan single_state_env (configured single_state_env)
         (pose_at 0 0 "map") (pose_at 10 0 "map") []) = (false, []) /\
  existsb is_simplify
    (fst (makePlan single_state_env (configured single_state_env)
            (pose_at 0 0 "map") (pose_at 10 0 "map") [])) = true /\
  existsb is_publish_plan
    (fst (makePlan single_state_env (configured single_state_env)
            (pose_at 0 0 "map") (pose_at 10 0 "map") [])) = false /\
  existsb is_publish_stats
    (fst (makePlan single_state_env (configured single_state_env)
            (pose_at 0 0 "map") (pose_at 10 0 "map") [])) = false.
Proof.
  apply (makePlan_degenerate_solution single_state_env
           (configured single_state_env) _ _ [] [mkSE2State 0 0 0]).
  - apply sample_request_accepted.
    + simpl. lia.
    + unfold free_space. rewrite int_of_double_0. lia.
    + unfold free_space. rewrite int_of_double_0. lia.
  - reflexivity.
  - reflexivity.
  - reflexivity.
  - simpl. lia.
Defined.

Lemma ipo_loop_dense (m : R) (path : list Pose2D) :
  spaced m path -> ipo_loop m path = path.
Proof.
  intros Hsp. destruct path as [| first rest]; [reflexivity |].
  unfold ipo_loop. apply ipo_fold_dense. simpl last.
  apply spaced_chain. exact Hsp.
Qed.

(** X27: with interpolation on, a solution of two states or more whose frames
    are within the spacing already is returned as it is: one pose per state,
    at the states' positions. *)
Theorem makePlan_dense_solution (env : Env) (self : OMPLPlannerBase)
    (start goal : PoseStamped) (plan0 : list PoseStamped)
    (sol : list SE2State) :
  accepted env self start goal ->
  (forall (ss : SimpleSetup) (t : R), ompl_solve env ss t = true) ->
  (forall ss : SimpleSetup, ompl_getSolutionPath env ss = sol) ->
  param (param_interpolate_path env) true = true ->
  (2 <= List.length sol)%nat ->
  spaced (max_dist_between_pathframes_ (snd (readParameters env self)))
         (map convert_State_Pose2D sol) ->
  fst (snd (makePlan env self start goal plan0)) = true /\
  map planar (snd (snd (makePlan env self start goal plan0)))
  = map state_position sol.
Proof.
  intros Hacc Hsolve Hpath Hipo Hlen Hdense.
  rewrite (accepted_solved_plan env self start goal plan0 sol); try assumption.
  cbn [fst snd]. split; [reflexivity |].
  rewrite (ipo_loop_dense _ _ Hdense).
  rewrite <- (length_map convert_State_Pose2D sol).
  rewrite stamped_plan_positions. apply converted_positions.
Qed.

Lemma makePlan_dense_solution_witness :
  fst (snd (makePlan short_env (configured short_env)
              (pose_at 0 0 "map") (pose_at 1 0 "map") [])) = true /\
  map planar
    (snd (snd (makePlan short_env (configured short_env)
                 (pose_at 0 0 "map") (pose_at 1 0 "map") [])))
  = map state_position short_solution.
Proof.
  apply (makePlan_dense_solution short_env (configured short_env)).
  - apply sample_request_accepted.
    + simpl. lia.
    + unfold free_space. rewrite int_of_double_0. lia.
    + unfold free_space. rewrite int_of_double_0. lia.
  - reflexivity.
  - reflexivity.
  - reflexivity.
  - simpl. lia.
  - rewrite (readParameters_spacing short_env _ 3); [| reflexivity | lra].
    unfold short_solution. cbn [map]. unfold convert_State_Pose2D.
    cbn [getX getY getYaw].
    rewrite (normalize_angle_id 0 zero_canonical).
    exact short_path_spaced.
Defined.
